(** * The neon calculator: expression state, finalization, history

    A shallow embedding of the [Calculator] React component
    (components/Calculator.jsx): the four pieces of component state, the
    handlers [handleButton], [calculateResult] and [handleHistoryClick], and
    the partial-result effect, followed by the properties of the
    expression-state machine.

    JavaScript strings are modelled by [string]; every character the
    handlers inspect (operators, the decimal point, the blank of the history
    separator) is ASCII, and the only key with a non-ASCII label is compared
    by equality and never stored in the display. *)

From Stdlib Require Import String Ascii List Bool ZArith Lia.
From Stdlib Require Import DecimalString.
Import ListNotations.

Local Open Scope string_scope.
Local Open Scope bool_scope.

(** ** JavaScript string primitives used by the component *)

Module JSString.

(** [s.slice(0, -1)]: everything but the last character. *)
Fixpoint slice_init (s : string) : string :=
  match s with
  | EmptyString => EmptyString
  | String c s' =>
      match s' with
      | EmptyString => EmptyString
      | String _ _ => String c (slice_init s')
      end
  end.

(** [s.slice(-1)]: the last character as a string, empty on the empty
    string. *)
Fixpoint slice_last (s : string) : string :=
  match s with
  | EmptyString => EmptyString
  | String c s' =>
      match s' with
      | EmptyString => String c EmptyString
      | String _ _ => slice_last s'
      end
  end.

(** [s.endsWith(suffix)]. *)
Fixpoint endsWith (s suffix : string) : bool :=
  String.eqb s suffix ||
  match s with
  | EmptyString => false
  | String _ s' => endsWith s' suffix
  end.

(** [s.startsWith(pre)]. *)
Fixpoint startsWith (s pre : string) : bool :=
  match pre with
  | EmptyString => true
  | String a pre' =>
      match s with
      | EmptyString => false
      | String b s' => Ascii.eqb a b && startsWith s' pre'
      end
  end.

(** [s.split(sep)[0]] for a non-empty separator: the part of [s] before
    the first occurrence of [sep], all of [s] when there is none. *)
Fixpoint split_head (sep s : string) : string :=
  if startsWith s sep then EmptyString
  else match s with
       | EmptyString => EmptyString
       | String c s' => String c (split_head sep s')
       end.

(** [list.includes(value)] on an array of strings. *)
Definition includes (l : list string) (value : string) : bool :=
  existsb (String.eqb value) l.

(** Character-level views used to state properties. *)
Definition first_is (p : ascii -> bool) (s : string) : bool :=
  match s with
  | EmptyString => false
  | String c _ => p c
  end.

Fixpoint last_is (p : ascii -> bool) (s : string) : bool :=
  match s with
  | EmptyString => false
  | String c s' =>
      match s' with
      | EmptyString => p c
      | String _ _ => last_is p s'
      end
  end.

(** Some two neighbouring characters both satisfy [p]. *)
Fixpoint adjacent (p : ascii -> bool) (s : string) : bool :=
  match s with
  | EmptyString => false
  | String c s' => (p c && first_is p s') || adjacent p s'
  end.

(** Some character satisfies [p]. *)
Fixpoint occurs (p : ascii -> bool) (s : string) : bool :=
  match s with
  | EmptyString => false
  | String c s' => p c || occurs p s'
  end.

End JSString.
Import JSString.

(** ** The external evaluator and number formatting

    [evaluate] is the expression evaluator of the mathjs library, a black
    box from strings to numbers that may throw; [None] stands for a throw
    inside the [try] block, which also covers a result on which [toFixed]
    is not callable.  [toFixed3] is [Number.prototype.toFixed(3)],
    [parseFloat] the global of that name and [numToString] the
    number-to-string conversion used both by [toString()] and by string
    concatenation. *)

Class Evaluator : Type := {
  number : Type;
  evaluate : string -> option number;
  toFixed3 : number -> string;
  parseFloat : string -> number;
  numToString : number -> string
}.

(** ** Component state *)

Record State : Type := mkState {
  showResult : bool;
  display : string;
  history : list string;
  partialResult : string
}.

Definition setShowResult (b : bool) (st : State) : State :=
  mkState b (display st) (history st) (partialResult st).

Definition setDisplay (d : string) (st : State) : State :=
  mkState (showResult st) d (history st) (partialResult st).

Definition setHistory (h : list string) (st : State) : State :=
  mkState (showResult st) (display st) h (partialResult st).

Definition setPartialResult (p : string) (st : State) : State :=
  mkState (showResult st) (display st) (history st) p.

(** The state on mount: every [useState] initial value. *)
Definition initialState : State := mkState false "" [] "".

(** [isOperator]: membership in the array of the five operator labels. *)
Definition isOperator (value : string) : bool :=
  includes ["%"; "*"; "/"; "-"; "+"] value.

Definition isOperatorChar (c : ascii) : bool :=
  isOperator (String c EmptyString).

Definition isDot (c : ascii) : bool := Ascii.eqb c ".".
Definition isSpace (c : ascii) : bool := Ascii.eqb c " ".

Section Calculator.

Context {E : Evaluator}.

(** The key table of utils/constants, which the component only maps over
    to render one pressable key per label. *)
Variable keys : list string.

(** [parseFloat(result.toFixed(3))]. *)
Definition round3 (result : number) : number := parseFloat (toFixed3 result).

(** [calculateResult].  Reads [display] and [history] of the current
    render; no handler writes to either before reading it, so threading
    the state is the same as reading the closure. *)
Definition calculateResult (st : State) : State :=
  if negb (String.length (display st) =? 0)%nat then
    match evaluate (display st) with
    | Some result =>
        let result := round3 result in
        let st := setHistory
                    (history st ++ [display st ++ " = " ++ numToString result])
                    st in
        let st := setDisplay (numToString result) st in
        setShowResult true st
    | None => setDisplay "Error" st
    end
  else st.

(** [handleButton]. *)
Definition handleButton (value : string) (st : State) : State :=
  let st' := setShowResult false st in
  if value =? "AC" then setDisplay "" st'
  else if value =? "C" then setDisplay (slice_init (display st)) st'
  else if value =? "=" then calculateResult st'
  else if includes ["sin"; "cos"; "tan"; "√"; "("; ")"] value then
    if value =? "√" then setDisplay (display st ++ "sqrt(") st'
    else if includes ["sin"; "cos"; "tan"] value then
      setDisplay (display st ++ value ++ "(") st'
    else setDisplay (display st ++ value) st'
  else if isOperator value then
    if (display st =? "") || isOperator (slice_last (display st)) then st'
    else setDisplay (display st ++ value) st'
  else if value =? "." then
    if endsWith (display st) "." then st'
    else setDisplay (display st ++ value) st'
  else setDisplay (display st ++ value) st'.

(** [handleHistoryClick]. *)
Definition handleHistoryClick (item : string) (st : State) : State :=
  let expression := split_head " = " item in
  setShowResult false (setDisplay expression st).

(** The partial-result effect, with dependencies [display] and
    [showResult]. *)
Definition partialEffect (st : State) : State :=
  if (display st =? "") || showResult st then setPartialResult "" st
  else match evaluate (display st) with
       | Some result => setPartialResult (numToString (round3 result)) st
       | None => setPartialResult "" st
       end.

Definition depsChanged (old new : State) : bool :=
  negb ((display old =? display new) &&
        Bool.eqb (showResult old) (showResult new)).

(** One event: the handler runs on the rendered state, the component
    re-renders, and the effect runs when a dependency changed. *)
Definition commit (old new : State) : State :=
  if depsChanged old new then partialEffect new else new.

Definition press (key : string) (st : State) : State :=
  commit st (handleButton key st).

Definition select (item : string) (st : State) : State :=
  commit st (handleHistoryClick item st).

Definition pressAll (ks : list string) (st : State) : State :=
  fold_left (fun s k => press k s) ks st.

(** The two kinds of user event, and runs of events. *)
Inductive Event : Type :=
| Press (key : string)
| Select (item : string).

Definition fire (e : Event) (st : State) : State :=
  match e with
  | Press key => press key st
  | Select item => select item st
  end.

Definition fireAll (es : list Event) (st : State) : State :=
  fold_left (fun s e => fire e s) es st.

(** The value the partial-result effect stores for a given expression
    and display mode. *)
Definition partialValue (d : string) (shown : bool) : string :=
  partialResult (partialEffect (mkState shown d [] "")).

(** The stored partial value agrees with the rendered expression and
    mode. *)
Definition upToDate (st : State) : Prop :=
  partialResult st = partialValue (display st) (showResult st).

(** States the user can bring about: keys come from the key table,
    history clicks from the rendered history list. *)
Inductive reachable : State -> Prop :=
| reach_mount : reachable (partialEffect initialState)
| reach_press : forall k st,
    reachable st -> In k keys -> reachable (press k st)
| reach_select : forall item st,
    reachable st -> In item (history st) -> reachable (select item st).

(** A history item that records a finalization: the expression shown in
    some reachable state, accepted by the evaluator, followed by the
    rendering of its rounded value. *)
Definition recorded (item : string) : Prop :=
  exists st0 n,
    reachable st0 /\ display st0 <> "" /\
    evaluate (display st0) = Some n /\
    item = display st0 ++ " = " ++ numToString (round3 n).

End Calculator.

(** ** The rendered display

    The expression line takes one of two classes, and the partial-result
    line is the JSX [partialResult && !showResult && <div>...</div>]:
    present only for a non-empty partial result outside result mode (the
    mobile and the desktop view render the same two lines). *)

Definition operationClass : string :=
  "text-[1.2rem] tracking-[2px] text-[rgba(255,255,255,0.5)] justify-end".

Definition resultClass : string := "text-[1.7rem]".

Definition expressionClass (st : State) : string :=
  if showResult st then resultClass else operationClass.

Definition partialLine (st : State) : option string :=
  if negb (partialResult st =? "") && negb (showResult st)
  then Some (partialResult st)
  else None.

(** ** Vocabulary of the properties *)

(** The text a key contributes when it is accepted: the label itself,
    except for the function keys and the square root. *)
Definition keyText (key : string) : string :=
  if key =? "√" then "sqrt("
  else if includes ["sin"; "cos"; "tan"] key then key ++ "("
  else key.

(** A key press is rejected on expression [e] when it is an operator that
    would lead or follow another operator, or a decimal point right after a
    decimal point. *)
Definition rejected (e key : string) : bool :=
  (isOperator key && ((e =? "") || last_is isOperatorChar e)) ||
  ((key =? ".") && last_is isDot e).

(** The expression that is the concatenation, in order, of the texts of the
    accepted keys of [ks], starting from [e]. *)
Fixpoint acceptedConcat (e : string) (ks : list string) : string :=
  match ks with
  | [] => e
  | k :: ks' =>
      if rejected e k then acceptedConcat e ks'
      else acceptedConcat (e ++ keyText k) ks'
  end.

Definition startsWithOperator (s : string) : bool := first_is isOperatorChar s.
Definition consecutiveOperators (s : string) : bool := adjacent isOperatorChar s.
Definition consecutiveDots (s : string) : bool := adjacent isDot s.
Definition hasSpace (s : string) : bool := occurs isSpace s.

Definition isDelimiter (c : ascii) : bool :=
  isOperatorChar c || isDot c || isSpace c.

(** A label made of characters that are neither operators, decimal points
    nor blanks (digits, letters, parentheses). *)
Definition plainLabel (s : string) : bool := negb (occurs isDelimiter s).

Definition recognisedLabel (key : string) : bool :=
  includes ["AC"; "C"; "="; "sin"; "cos"; "tan"; "√"; "("; ")";
            "%"; "*"; "/"; "-"; "+"; "."] key.

(** What is assumed of the key table: a label that [handleButton] does not
    single out is plain. *)
Definition keyTableOk (keys : list string) : bool :=
  forallb (fun k => recognisedLabel k || plainLabel k) keys.

Definition otherOperator (c : ascii) : bool :=
  isOperatorChar c && negb (Ascii.eqb c "-").

(** The shape of a number rendered by JavaScript, as far as the expression
    rules go: no two operators or decimal points in a row, no blank, and no
    leading operator other than the minus sign. *)
Definition numeralOk (s : string) : bool :=
  negb (consecutiveOperators s) && negb (consecutiveDots s) &&
  negb (hasSpace s) && negb (first_is otherOperator s).

(** An expression with no two operators in a row, no two decimal points in
    a row, no blank, and no leading character in [q]. *)
Definition wellFormed (q : ascii -> bool) (d : string) : Prop :=
  consecutiveOperators d = false /\ consecutiveDots d = false /\
  hasSpace d = false /\ first_is q d = false.

(** A state whose expression is well formed and whose history items all
    split back to well-formed expressions. *)
Definition stateOk (q : ascii -> bool) (st : State) : Prop :=
  wellFormed q (display st) /\
  Forall (fun item => wellFormed q (split_head " = " item)) (history st).

(** A state none of whose expressions, current or recorded, has a blank. *)
Definition spaceFree (st : State) : Prop :=
  hasSpace (display st) = false /\
  Forall (fun item => hasSpace (split_head " = " item) = false) (history st).

(** What the round trip through the history needs of the key table: no
    label has a blank. *)
Definition keysSpaceFree (keys : list string) : bool :=
  forallb (fun k => negb (hasSpace k)) keys.

(** ** A small evaluator instance

    Integer sums and differences of decimal literals, enough to run the
    component on concrete key sequences. *)

Module Sample.

Definition digitValue (c : ascii) : option Z :=
  let n := Z.of_nat (nat_of_ascii c) in
  if (48 <=? n)%Z && (n <=? 57)%Z then Some (n - 48)%Z else None.

(** [scan total sign cur s]: [total] is the value of the terms read so
    far, [sign] the sign of the term being read and [cur] its digits, if
    any. *)
Fixpoint scan (total sign : Z) (cur : option Z) (s : string) : option Z :=
  match s with
  | EmptyString =>
      match cur with
      | Some v => Some (total + sign * v)%Z
      | None => None
      end
  | String c s' =>
      match digitValue c with
      | Some d =>
          scan total sign
               (Some (match cur with Some v => 10 * v + d | None => d end)%Z)
               s'
      | None =>
          match cur with
          | Some v =>
              if Ascii.eqb c "+" then scan (total + sign * v)%Z 1%Z None s'
              else if Ascii.eqb c "-"
                   then scan (total + sign * v)%Z (-1)%Z None s'
                   else None
          | None => None
          end
      end
  end.

Definition render (z : Z) : string := NilZero.string_of_int (Z.to_int z).

Definition parse (s : string) : Z :=
  match NilZero.int_of_string (split_head "." s) with
  | Some i => Z.of_int i
  | None => 0%Z
  end.

(** A leading minus sign negates the first term. *)
Definition eval (s : string) : option Z :=
  match s with
  | String "-" s' => scan 0%Z (-1)%Z None s'
  | _ => scan 0%Z 1%Z None s
  end.

#[local] Instance evaluator : Evaluator := {|
  number := Z;
  evaluate := eval;
  toFixed3 := fun z => render z ++ ".000";
  parseFloat := parse;
  numToString := render
|}.

Definition keys : list string :=
  ["AC"; "C"; "%"; "/";
   "sin"; "cos"; "tan"; "√";
   "7"; "8"; "9"; "*";
   "4"; "5"; "6"; "-";
   "1"; "2"; "3"; "+";
   "("; ")"; "0"; "."; "="].

Definition run (ks : list string) : State :=
  pressAll (E := evaluator) ks (partialEffect (E := evaluator) initialState).

End Sample.

(** Settling a concrete run by evaluation. *)
Ltac run_differs :=
  let H := fresh "H" in intros H; vm_compute in H; discriminate H.
Ltac run_equal := vm_compute; reflexivity.
Ltac run_exact H := vm_compute in H; vm_compute; exact H.

Example sample_sum : display (Sample.run ["5"; "0"; "+"; "2"; "="]) = "52".
Proof. reflexivity. Qed.

Example sample_incomplete :
  display (Sample.run ["5"; "0"; "+"; "="]) = "Error".
Proof. reflexivity. Qed.

Example sample_negative : Sample.run ["2"; "-"; "7"; "="] =
  mkState true "-5" ["2-7 = -5"] "".
Proof. reflexivity. Qed.

Example sample_partial : Sample.run ["5"; "0"; "+"; "2"] =
  mkState false "50+2" [] "52".
Proof. reflexivity. Qed.

Example sample_sqrt : display (Sample.run ["√"; "4"; ")"; "C"]) = "sqrt(4".
Proof. reflexivity. Qed.

(** ** Facts about the string primitives *)

Section StringFacts.

Variable p : ascii -> bool.

Lemma first_is_app (s t : string) :
  first_is p (s ++ t) = if s =? "" then first_is p t else first_is p s.
Proof. destruct s; reflexivity. Qed.

Lemma last_is_app (s t : string) :
  last_is p (s ++ t) = if t =? "" then last_is p s else last_is p t.
Proof.
  induction s as [|a s IH].
  - destruct t; reflexivity.
  - destruct s as [|b s].
    + destruct t; reflexivity.
    + change (last_is p (String b s ++ t) =
              if t =? "" then last_is p (String b s) else last_is p t).
      exact IH.
Qed.

Lemma occurs_app (s t : string) :
  occurs p (s ++ t) = occurs p s || occurs p t.
Proof.
  induction s as [|a s IH]; simpl; [reflexivity|].
  rewrite IH. apply orb_assoc.
Qed.

Lemma adjacent_app (s t : string) :
  adjacent p (s ++ t) =
  adjacent p s || adjacent p t || (last_is p s && first_is p t).
Proof.
  induction s as [|a s IH].
  - simpl. now rewrite orb_false_r.
  - change (adjacent p (String a s ++ t))
      with ((p a && first_is p (s ++ t)) || adjacent p (s ++ t)).
    rewrite IH, first_is_app.
    destruct s as [|b s].
    + simpl. destruct (p a), (first_is p t), (adjacent p t); reflexivity.
    + change (last_is p (String a (String b s)))
        with (last_is p (String b s)).
      change (adjacent p (String a (String b s)))
        with ((p a && p b) || adjacent p (String b s)).
      change (String b s =? "") with false. cbv iota.
      change (first_is p (String b s)) with (p b).
      destruct (p a), (p b), (adjacent p (String b s)), (adjacent p t),
        (last_is p (String b s)), (first_is p t); reflexivity.
Qed.

Lemma occurs_none_first (s : string) :
  occurs p s = false -> first_is p s = false.
Proof. destruct s; simpl; [reflexivity|]. now intros [H _]%orb_false_elim. Qed.

Lemma occurs_none_last (s : string) :
  occurs p s = false -> last_is p s = false.
Proof.
  induction s as [|a s IH]; [reflexivity|].
  simpl. intros [Ha Hs]%orb_false_elim.
  destruct s; [exact Ha | exact (IH Hs)].
Qed.

Lemma occurs_none_adjacent (s : string) :
  occurs p s = false -> adjacent p s = false.
Proof.
  induction s as [|a s IH]; [reflexivity|].
  simpl. intros [Ha Hs]%orb_false_elim.
  now rewrite Ha, (IH Hs).
Qed.

End StringFacts.

Lemma slice_init_last (s : string) : slice_init s ++ slice_last s = s.
Proof.
  induction s as [|a s IH]; [reflexivity|].
  destruct s as [|b s]; [reflexivity|].
  change (String a (slice_init (String b s) ++ slice_last (String b s)) =
          String a (String b s)).
  now rewrite IH.
Qed.

Lemma slice_last_is (p : ascii -> bool) (s : string) :
  first_is p (slice_last s) = last_is p s.
Proof.
  induction s as [|a s IH]; [reflexivity|].
  destruct s as [|b s]; [reflexivity|]. exact IH.
Qed.

Lemma slice_last_short (s : string) :
  slice_last s = "" \/ exists c, slice_last s = String c "".
Proof.
  induction s as [|a s IH]; [now left|].
  destruct s as [|b s]; [right; now exists a | exact IH].
Qed.

Lemma isOperator_slice_last (s : string) :
  isOperator (slice_last s) = last_is isOperatorChar s.
Proof.
  rewrite <- slice_last_is.
  destruct (slice_last_short s) as [-> | [c ->]]; reflexivity.
Qed.

Lemma endsWith_dot (s : string) : endsWith s "." = last_is isDot s.
Proof.
  induction s as [|a s IH]; [reflexivity|].
  destruct s as [|b s].
  - simpl. unfold isDot. destruct (Ascii.eqb a "."); reflexivity.
  - change (endsWith (String a (String b s)) ".")
      with ((String a (String b s) =? ".") || endsWith (String b s) ".").
    rewrite IH. cbn [String.eqb].
    destruct (Ascii.eqb a "."); reflexivity.
Qed.

Lemma occurs_slice_init (p : ascii -> bool) (s : string) :
  occurs p s = false -> occurs p (slice_init s) = false.
Proof.
  rewrite <- (slice_init_last s) at 1. rewrite occurs_app.
  now intros [H _]%orb_false_elim.
Qed.

Lemma adjacent_slice_init (p : ascii -> bool) (s : string) :
  adjacent p s = false -> adjacent p (slice_init s) = false.
Proof.
  rewrite <- (slice_init_last s) at 1. rewrite adjacent_app.
  now intros [[H _]%orb_false_elim _]%orb_false_elim.
Qed.

Lemma first_is_slice_init (p : ascii -> bool) (s : string) :
  first_is p s = false -> first_is p (slice_init s) = false.
Proof.
  destruct s as [|a s]; [reflexivity|].
  destruct s as [|b s]; [reflexivity|]. exact (fun H => H).
Qed.

Lemma string_empty_length (s : string) :
  (String.length s =? 0)%nat = (s =? "").
Proof. destruct s; reflexivity. Qed.

(** Splitting a history item gives back the expression it was built from,
    as long as the expression has no blank. *)
Lemma split_head_item (d r : string) :
  hasSpace d = false -> split_head " = " (d ++ " = " ++ r) = d.
Proof.
  unfold hasSpace. induction d as [|a d IH]; intros H.
  - destruct r; reflexivity.
  - simpl in H. apply orb_false_elim in H as [Ha Hd].
    unfold isSpace in Ha. apply Ascii.eqb_neq in Ha.
    change (String a d ++ " = " ++ r) with (String a (d ++ " = " ++ r)).
    cbn [split_head startsWith].
    destruct (Ascii.eqb_spec " " a) as [Heq | _]; [now subst|].
    cbn [andb]. now rewrite (IH Hd).
Qed.

(** ** Well-formed expressions *)

Lemma occurs_weaken (p p' : ascii -> bool) (s : string) :
  (forall c, p c = true -> p' c = true) ->
  occurs p' s = false -> occurs p s = false.
Proof.
  intros Hpp'. induction s as [|a s IH]; [reflexivity|].
  simpl. intros [Ha Hs]%orb_false_elim. rewrite (IH Hs), orb_false_r.
  destruct (p a) eqn:Hpa; [|reflexivity].
  apply Hpp' in Hpa. congruence.
Qed.

Lemma plain_operator (t : string) :
  plainLabel t = true -> occurs isOperatorChar t = false.
Proof.
  unfold plainLabel. intros H%negb_true_iff. revert H.
  apply occurs_weaken. intros c Hc. unfold isDelimiter. now rewrite Hc.
Qed.

Lemma plain_dot (t : string) :
  plainLabel t = true -> occurs isDot t = false.
Proof.
  unfold plainLabel. intros H%negb_true_iff. revert H.
  apply occurs_weaken. intros c Hc. unfold isDelimiter.
  now rewrite Hc, orb_true_r.
Qed.

Lemma plain_space (t : string) :
  plainLabel t = true -> occurs isSpace t = false.
Proof.
  unfold plainLabel. intros H%negb_true_iff. revert H.
  apply occurs_weaken. intros c Hc. unfold isDelimiter.
  now rewrite Hc, !orb_true_r.
Qed.

Lemma isOperator_cases (k : string) :
  isOperator k = true ->
  k = "%" \/ k = "*" \/ k = "/" \/ k = "-" \/ k = "+".
Proof.
  unfold isOperator, includes. cbn [existsb].
  rewrite !orb_true_iff, !String.eqb_eq. intuition discriminate.
Qed.

Section WellFormed.

(** [q] singles out the operators that may not lead the expression. *)
Variable q : ascii -> bool.
Hypothesis q_operator : forall c, q c = true -> isOperatorChar c = true.

Lemma wellFormed_empty : wellFormed q "".
Proof. now repeat split. Qed.

Lemma wellFormed_Error : wellFormed q "Error".
Proof.
  repeat split; try reflexivity.
  cbn. destruct (q "E") eqn:HE; [|reflexivity].
  apply q_operator in HE. discriminate HE.
Qed.

Lemma wellFormed_slice_init (d : string) :
  wellFormed q d -> wellFormed q (slice_init d).
Proof.
  intros (Hop & Hdot & Hsp & Hq). repeat split.
  - now apply adjacent_slice_init.
  - now apply adjacent_slice_init.
  - now apply occurs_slice_init.
  - now apply first_is_slice_init.
Qed.

Lemma wellFormed_app_plain (d t : string) :
  wellFormed q d -> plainLabel t = true -> wellFormed q (d ++ t).
Proof.
  intros (Hop & Hdot & Hsp & Hq) Ht.
  pose proof (plain_operator t Ht) as Hto.
  pose proof (plain_dot t Ht) as Htd.
  pose proof (plain_space t Ht) as Hts.
  unfold wellFormed, consecutiveOperators, consecutiveDots, hasSpace in *.
  rewrite !adjacent_app, occurs_app, first_is_app.
  rewrite Hop, Hdot, Hsp, Hts.
  rewrite (occurs_none_adjacent _ _ Hto), (occurs_none_adjacent _ _ Htd).
  rewrite (occurs_none_first _ _ Hto), (occurs_none_first _ _ Htd).
  rewrite !andb_false_r. repeat split.
  destruct (d =? ""); [|exact Hq].
  apply (occurs_none_first q).
  revert Hto. now apply occurs_weaken.
Qed.

Lemma wellFormed_app_operator (d k : string) :
  isOperator k = true -> (d =? "") = false ->
  last_is isOperatorChar d = false ->
  wellFormed q d -> wellFormed q (d ++ k).
Proof.
  intros Hk Hne Hlast (Hop & Hdot & Hsp & Hq).
  unfold wellFormed, consecutiveOperators, consecutiveDots, hasSpace in *.
  rewrite !adjacent_app, occurs_app, first_is_app.
  rewrite Hop, Hdot, Hsp, Hne, Hlast, Hq.
  destruct (isOperator_cases k Hk) as [-> | [-> | [-> | [-> | ->]]]];
    cbn; rewrite ?andb_false_r; now repeat split.
Qed.

Lemma wellFormed_app_dot (d : string) :
  last_is isDot d = false -> wellFormed q d -> wellFormed q (d ++ ".").
Proof.
  intros Hlast (Hop & Hdot & Hsp & Hq).
  unfold wellFormed, consecutiveOperators, consecutiveDots, hasSpace in *.
  rewrite !adjacent_app, occurs_app, first_is_app.
  rewrite Hop, Hdot, Hsp, Hlast. cbn. rewrite ?andb_false_r.
  repeat split. destruct (d =? ""); [|exact Hq].
  destruct (q ".") eqn:Hd; [|reflexivity].
  apply q_operator in Hd. discriminate Hd.
Qed.

End WellFormed.

Lemma wellFormed_numeral (s : string) :
  numeralOk s = true -> wellFormed otherOperator s.
Proof.
  unfold numeralOk. rewrite !andb_true_iff, !negb_true_iff.
  intros [[[H1 H2] H3] H4]. now repeat split.
Qed.

Lemma otherOperator_operator (c : ascii) :
  otherOperator c = true -> isOperatorChar c = true.
Proof. unfold otherOperator. now intros [H _]%andb_true_iff. Qed.

Lemma recognisedLabel_tests (k : string) :
  recognisedLabel k =
  (k =? "AC") || ((k =? "C") || ((k =? "=") ||
  (includes ["sin"; "cos"; "tan"; "√"; "("; ")"] k ||
  (isOperator k || (k =? "."))))).
Proof.
  unfold recognisedLabel, isOperator, includes. cbn [existsb].
  rewrite !orb_false_r, <- !orb_assoc. reflexivity.
Qed.

(** ** The handlers keep expressions well formed *)

Section Preservation.

Context {E : Evaluator}.

Lemma partialEffect_frame (st : State) :
  showResult (partialEffect st) = showResult st /\
  display (partialEffect st) = display st /\
  history (partialEffect st) = history st.
Proof.
  unfold partialEffect.
  destruct ((display st =? "") || showResult st); [easy|].
  destruct (evaluate (display st)); easy.
Qed.

Lemma commit_frame (old new : State) :
  showResult (commit old new) = showResult new /\
  display (commit old new) = display new /\
  history (commit old new) = history new.
Proof.
  unfold commit. destruct (depsChanged old new); [|easy].
  apply partialEffect_frame.
Qed.

Lemma stateOk_commit (q : ascii -> bool) (old new : State) :
  stateOk q new -> stateOk q (commit old new).
Proof.
  unfold stateOk. destruct (commit_frame old new) as (_ & -> & ->).
  exact (fun H => H).
Qed.

Section Leading.

Variable q : ascii -> bool.
Hypothesis q_operator : forall c, q c = true -> isOperatorChar c = true.

Lemma calculateResult_stateOk (st : State) :
  (forall n, wellFormed q (numToString n)) ->
  stateOk q st -> stateOk q (calculateResult st).
Proof.
  intros Hnum [Hd Hh]. unfold calculateResult.
  destruct (negb (String.length (display st) =? 0)%nat); [|now split].
  destruct (evaluate (display st)) as [n|]; split;
    cbn [display history setShowResult setDisplay setHistory].
  - apply Hnum.
  - apply Forall_app. split; [exact Hh|].
    constructor; [|constructor].
    rewrite split_head_item; [exact Hd | apply Hd].
  - now apply wellFormed_Error.
  - exact Hh.
Qed.

Lemma handleButton_stateOk (k : string) (st : State) :
  (k = "=" -> forall n, wellFormed q (numToString n)) ->
  recognisedLabel k || plainLabel k = true ->
  stateOk q st -> stateOk q (handleButton k st).
Proof.
  intros Hnum Hk [Hd Hh]. rewrite recognisedLabel_tests in Hk.
  unfold handleButton.
  destruct (k =? "AC") eqn:HAC.
  { split; [apply wellFormed_empty | exact Hh]. }
  destruct (k =? "C") eqn:HC.
  { split; [now apply wellFormed_slice_init | exact Hh]. }
  destruct (k =? "=") eqn:Heq.
  { apply String.eqb_eq in Heq.
    apply calculateResult_stateOk; [now apply Hnum | now split]. }
  destruct (includes ["sin"; "cos"; "tan"; "√"; "("; ")"] k) eqn:Hf.
  { unfold includes in Hf. cbn [existsb] in Hf.
    rewrite !orb_true_iff, !String.eqb_eq in Hf.
    destruct Hf as [-> | [-> | [-> | [-> | [-> | [-> | Hf]]]]]];
      try discriminate Hf;
      (split; [apply wellFormed_app_plain; [assumption | assumption
                                           | reflexivity]
              | exact Hh]). }
  destruct (isOperator k) eqn:Hop.
  { rewrite isOperator_slice_last.
    destruct (display st =? "") eqn:Hne; [now split|].
    destruct (last_is isOperatorChar (display st)) eqn:Hl; [now split|].
    split; [now apply wellFormed_app_operator | exact Hh]. }
  destruct (k =? ".") eqn:Hdot.
  { apply String.eqb_eq in Hdot. subst k. rewrite endsWith_dot.
    destruct (last_is isDot (display st)) eqn:Hl; [now split|].
    split; [now apply wellFormed_app_dot | exact Hh]. }
  cbn in Hk.
  split; [now apply wellFormed_app_plain | exact Hh].
Qed.

Lemma handleHistoryClick_stateOk (item : string) (st : State) :
  In item (history st) ->
  stateOk q st -> stateOk q (handleHistoryClick item st).
Proof.
  intros Hin [Hd Hh]. split; [|exact Hh].
  cbn. rewrite Forall_forall in Hh. now apply Hh.
Qed.

End Leading.

(** Every reachable expression is well formed, allowing a leading minus
    sign. *)
Lemma reachable_stateOk (keys : list string) (st : State) :
  keyTableOk keys = true ->
  (forall n, numeralOk (numToString n) = true) ->
  reachable keys st -> stateOk otherOperator st.
Proof.
  intros Hkeys Hnum Hreach.
  induction Hreach as [|k st Hreach IH Hk|item st Hreach IH Hitem].
  - destruct (partialEffect_frame initialState) as (_ & Hd & Hh).
    unfold stateOk. rewrite Hd, Hh. split; [now repeat split | constructor].
  - apply stateOk_commit.
    apply handleButton_stateOk; try assumption.
    + exact otherOperator_operator.
    + intros _ n. apply wellFormed_numeral, Hnum.
    + unfold keyTableOk in Hkeys. rewrite forallb_forall in Hkeys.
      now apply Hkeys.
  - apply stateOk_commit.
    apply handleHistoryClick_stateOk; try assumption.
Qed.

End Preservation.

(** ** More facts about strings and key classes *)

Lemma append_assoc (s t u : string) : (s ++ t) ++ u = s ++ (t ++ u).
Proof. induction s as [|a s IH]; simpl; [reflexivity | now rewrite IH]. Qed.

Lemma append_same_inv (s t : string) : s ++ t = s -> t = "".
Proof.
  induction s as [|a s IH]; simpl; [exact (fun H => H)|].
  intros H. injection H as H. exact (IH H).
Qed.

Lemma isOperator_nonempty (k : string) : isOperator k = true -> k <> "".
Proof. intros H ->. discriminate H. Qed.

Lemma keyText_operator (k : string) : isOperator k = true -> keyText k = k.
Proof.
  intros H.
  destruct (isOperator_cases k H) as [-> | [-> | [-> | [-> | ->]]]];
    reflexivity.
Qed.

Lemma isOperator_not_dot (k : string) : isOperator k = true -> (k =? ".") = false.
Proof.
  intros H.
  destruct (isOperator_cases k H) as [-> | [-> | [-> | [-> | ->]]]];
    reflexivity.
Qed.

Lemma hasSpace_keyText (k : string) :
  hasSpace k = false -> hasSpace (keyText k) = false.
Proof.
  intros Hk. unfold keyText.
  destruct (k =? "√"); [reflexivity|].
  destruct (includes ["sin"; "cos"; "tan"] k); [|exact Hk].
  unfold hasSpace in *. now rewrite occurs_app, Hk.
Qed.

(** ** Single events *)

Section Events.

Context {E : Evaluator}.

Lemma handleButton_partialResult (k : string) (st : State) :
  partialResult (handleButton k st) = partialResult st.
Proof.
  unfold handleButton, calculateResult.
  repeat match goal with
         | |- context [if ?b then _ else _] => destruct b
         | |- context [match evaluate ?d with _ => _ end] =>
             destruct (evaluate d)
         end; reflexivity.
Qed.

Lemma handleButton_reset (k : string) (st : State) :
  handleButton k (setShowResult false st) = handleButton k st.
Proof. reflexivity. Qed.

(** The expression after a key other than the three editing keys. *)
Lemma handleButton_display (k : string) (st : State) :
  k <> "AC" -> k <> "C" -> k <> "=" ->
  display (handleButton k st) =
  if rejected (display st) k then display st
  else display st ++ keyText k.
Proof.
  intros HAC HC Heq. unfold handleButton, rejected, keyText.
  apply String.eqb_neq in HAC, HC, Heq. rewrite HAC, HC, Heq.
  destruct (includes ["sin"; "cos"; "tan"; "√"; "("; ")"] k) eqn:Hf.
  { unfold includes in Hf. cbn [existsb] in Hf.
    rewrite !orb_true_iff, !String.eqb_eq in Hf.
    destruct Hf as [-> | [-> | [-> | [-> | [-> | [-> | Hf]]]]]];
      try discriminate Hf; cbn; now rewrite ?andb_false_r. }
  assert (Hsqrt : (k =? "√") = false).
  { unfold includes in Hf. cbn [existsb] in Hf.
    destruct (k =? "√"); [|reflexivity].
    now rewrite !orb_true_r in Hf. }
  assert (Hfun : includes ["sin"; "cos"; "tan"] k = false).
  { unfold includes in *. cbn [existsb] in *.
    destruct (k =? "sin"), (k =? "cos"), (k =? "tan");
      try reflexivity; discriminate Hf. }
  rewrite Hsqrt, Hfun.
  destruct (isOperator k) eqn:Hop.
  { rewrite isOperator_slice_last, (isOperator_not_dot k Hop).
    cbn [andb]. rewrite orb_false_r.
    destruct ((display st =? "") || last_is isOperatorChar (display st));
      reflexivity. }
  cbn [andb orb].
  destruct (k =? ".") eqn:Hdot.
  { apply String.eqb_eq in Hdot. subst k. rewrite endsWith_dot.
    cbn [andb]. destruct (last_is isDot (display st)); reflexivity. }
  reflexivity.
Qed.

Lemma press_display (k : string) (st : State) :
  display (press k st) = display (handleButton k st).
Proof. apply commit_frame. Qed.

Lemma press_history (k : string) (st : State) :
  history (press k st) = history (handleButton k st).
Proof. apply commit_frame. Qed.

Lemma press_showResult (k : string) (st : State) :
  showResult (press k st) = showResult (handleButton k st).
Proof. apply commit_frame. Qed.

Lemma handleButton_history (k : string) (st : State) :
  history (handleButton k st) = history st \/
  exists r, history (handleButton k st) = (history st ++ [r])%list.
Proof.
  unfold handleButton, calculateResult.
  repeat match goal with
         | |- context [if ?b then _ else _] => destruct b
         end; try (left; reflexivity).
  destruct (evaluate (display (setShowResult false st)));
    [right; eexists; reflexivity | left; reflexivity].
Qed.

Lemma fire_history (e : Event) (st : State) :
  history (fire e st) = history st \/
  exists r, history (fire e st) = (history st ++ [r])%list.
Proof.
  destruct e as [k | item]; cbn [fire].
  - rewrite press_history. apply handleButton_history.
  - left. unfold select.
    destruct (commit_frame st (handleHistoryClick item st)) as (_ & _ & ->).
    reflexivity.
Qed.

(** The stored partial value is what the effect computes from the
    expression and the mode alone. *)
Lemma partialEffect_value (st : State) :
  partialEffect st =
  setPartialResult (partialValue (display st) (showResult st)) st.
Proof.
  unfold partialValue, partialEffect. cbn [display showResult].
  destruct ((display st =? "") || showResult st); [reflexivity|].
  destruct (evaluate (display st)); reflexivity.
Qed.

Lemma commit_upToDate (old new : State) :
  upToDate old -> partialResult new = partialResult old ->
  upToDate (commit old new).
Proof.
  unfold upToDate, commit, depsChanged. intros Hold Hsame.
  destruct (display old =? display new) eqn:Hd;
    [destruct (Bool.eqb (showResult old) (showResult new)) eqn:Hs|];
    cbn [andb negb].
  - apply String.eqb_eq in Hd. apply Bool.eqb_prop in Hs.
    now rewrite Hsame, Hold, Hd, Hs.
  - now rewrite partialEffect_value.
  - now rewrite partialEffect_value.
Qed.

Lemma reachable_upToDate (keys : list string) (st : State) :
  reachable keys st -> upToDate st.
Proof.
  induction 1 as [|k st _ IH _|item st _ IH _].
  - reflexivity.
  - apply commit_upToDate; [exact IH | apply handleButton_partialResult].
  - apply commit_upToDate; [exact IH | reflexivity].
Qed.

Lemma reachable_pressAll (keys ks : list string) (st : State) :
  reachable keys st -> Forall (fun k => In k keys) ks ->
  reachable keys (pressAll ks st).
Proof.
  intros Hst Hks. revert st Hst.
  induction Hks as [|k ks Hk _ IH]; intros st Hst; [exact Hst|].
  apply IH. now apply reach_press.
Qed.

End Events.

(** ** Runs of events *)

Section Runs.

Context {E : Evaluator}.

Lemma handleButton_equals (st : State) :
  handleButton "=" st = calculateResult (setShowResult false st).
Proof. reflexivity. Qed.

Lemma handleButton_history_frame (k : string) (st : State) :
  k <> "=" -> history (handleButton k st) = history st.
Proof.
  intros Heq%String.eqb_neq. unfold handleButton. rewrite Heq.
  repeat match goal with
         | |- context [if ?b then _ else _] => destruct b
         end; reflexivity.
Qed.

Lemma handleButton_showResult (k : string) (st : State) :
  k <> "=" -> showResult (handleButton k st) = false.
Proof.
  intros Heq%String.eqb_neq. unfold handleButton. rewrite Heq.
  repeat match goal with
         | |- context [if ?b then _ else _] => destruct b
         end; reflexivity.
Qed.

Lemma calculateResult_success (st : State) (n : number) :
  display st <> "" -> evaluate (display st) = Some n ->
  calculateResult st =
  mkState true (numToString (round3 n))
          (history st ++ [display st ++ " = " ++ numToString (round3 n)])
          (partialResult st).
Proof.
  intros Hne Hev. unfold calculateResult.
  rewrite string_empty_length, Hev.
  apply String.eqb_neq in Hne. now rewrite Hne.
Qed.

Lemma calculateResult_failure (st : State) :
  display st <> "" -> evaluate (display st) = None ->
  calculateResult st =
  mkState (showResult st) "Error" (history st) (partialResult st).
Proof.
  intros Hne Hev. unfold calculateResult.
  rewrite string_empty_length, Hev.
  apply String.eqb_neq in Hne. now rewrite Hne.
Qed.

Lemma calculateResult_empty (st : State) :
  display st = "" -> calculateResult st = st.
Proof. intros Hd. unfold calculateResult. now rewrite Hd. Qed.

Lemma fireAll_history (es : list Event) (st : State) :
  exists suffix,
    history (fireAll es st) = (history st ++ suffix)%list /\
    (length suffix <= length es)%nat.
Proof.
  revert st. induction es as [|e es IH]; intros st.
  - exists []. split; [now rewrite app_nil_r | apply le_n].
  - destruct (IH (fire e st)) as (suffix & Hs & Hlen).
    change (fireAll (e :: es) st) with (fireAll es (fire e st)).
    destruct (fire_history e st) as [Hsame | [r Hr]].
    + exists suffix. rewrite Hs, Hsame. split; [reflexivity|].
      cbn [length]. lia.
    + exists (r :: suffix). rewrite Hs, Hr, <- app_assoc.
      split; [reflexivity|]. cbn [length]. lia.
Qed.

(** Keys other than [=], [AC] and [C] only extend the expression. *)
Lemma pressAll_acceptedConcat (ks : list string) (st : State) :
  ~ In "=" ks -> ~ In "AC" ks -> ~ In "C" ks ->
  display (pressAll ks st) = acceptedConcat (display st) ks.
Proof.
  revert st. induction ks as [|k ks IH]; intros st Heq HAC HC.
  - reflexivity.
  - change (pressAll (k :: ks) st) with (pressAll ks (press k st)).
    cbn [In] in Heq, HAC, HC.
    rewrite IH by tauto.
    rewrite press_display, handleButton_display by (intros ->; tauto).
    cbn [acceptedConcat]. destruct (rejected (display st) k); reflexivity.
Qed.

Lemma spaceFree_commit (old new : State) :
  spaceFree new -> spaceFree (commit old new).
Proof.
  unfold spaceFree. destruct (commit_frame old new) as (_ & -> & ->).
  exact (fun H => H).
Qed.

Lemma handleButton_spaceFree (k : string) (st : State) :
  hasSpace k = false ->
  (forall n, hasSpace (numToString n) = false) ->
  spaceFree st -> spaceFree (handleButton k st).
Proof.
  intros Hk Hnum [Hd Hh].
  destruct (String.eqb_spec k "=") as [-> | Heq].
  { rewrite handleButton_equals. unfold calculateResult.
    cbn [display history setShowResult].
    destruct (negb (String.length (display st) =? 0)%nat); [|now split].
    destruct (evaluate (display st)) as [n|]; split;
      cbn [display history setShowResult setDisplay setHistory];
      try assumption; try reflexivity; try apply Hnum.
    apply Forall_app. split; [exact Hh|].
    constructor; [|constructor]. now rewrite split_head_item. }
  split; [|now rewrite handleButton_history_frame].
  destruct (String.eqb_spec k "AC") as [-> | HAC]; [reflexivity|].
  destruct (String.eqb_spec k "C") as [-> | HC].
  { now apply occurs_slice_init. }
  rewrite handleButton_display by assumption.
  destruct (rejected (display st) k); [exact Hd|].
  unfold hasSpace in *. rewrite occurs_app, Hd.
  now apply hasSpace_keyText.
Qed.

Lemma reachable_spaceFree (keys : list string) (st : State) :
  keysSpaceFree keys = true ->
  (forall n, hasSpace (numToString n) = false) ->
  reachable keys st -> spaceFree st.
Proof.
  intros Hkeys Hnum Hreach.
  induction Hreach as [|k st Hreach IH Hk|item st Hreach IH Hitem].
  - destruct (partialEffect_frame initialState) as (_ & Hd & Hh).
    unfold spaceFree. rewrite Hd, Hh. split; [reflexivity | constructor].
  - apply spaceFree_commit, handleButton_spaceFree; try assumption.
    unfold keysSpaceFree in Hkeys. rewrite forallb_forall in Hkeys.
    apply negb_true_iff. now apply Hkeys.
  - apply spaceFree_commit. destruct IH as [Hd Hh].
    split; [|exact Hh]. cbn. rewrite Forall_forall in Hh. now apply Hh.
Qed.

(** Without [=] no leading operator can arise. *)
Lemma pressAll_no_leading_operator (keys ks : list string) (st : State) :
  keyTableOk keys = true ->
  Forall (fun k => In k keys) ks -> ~ In "=" ks ->
  stateOk isOperatorChar st -> stateOk isOperatorChar (pressAll ks st).
Proof.
  intros Hkeys Hks. revert st.
  induction Hks as [|k ks Hk _ IH]; intros st Heq Hst; [exact Hst|].
  cbn [In] in Heq. apply IH; [tauto|].
  apply stateOk_commit, handleButton_stateOk.
  - exact (fun c H => H).
  - intros ->. tauto.
  - unfold keyTableOk in Hkeys. rewrite forallb_forall in Hkeys.
    now apply Hkeys.
  - exact Hst.
Qed.

(** Once the expression starts with the error text, keys other than
    [AC] and [C] keep it there, provided the evaluator rejects such
    expressions whenever [=] is among the keys. *)
Lemma press_keeps_error (k : string) (st : State) :
  k <> "AC" -> k <> "C" ->
  (k = "=" -> forall s, evaluate ("Error" ++ s) = None) ->
  (exists s, display st = "Error" ++ s) ->
  exists s, display (press k st) = "Error" ++ s.
Proof.
  intros HAC HC Hev [s Hs]. rewrite press_display.
  destruct (String.eqb_spec k "=") as [-> | Heq].
  - rewrite handleButton_equals, calculateResult_failure.
    + now exists "".
    + cbn [display setShowResult]. now rewrite Hs.
    + cbn [display setShowResult]. rewrite Hs. now apply Hev.
  - rewrite handleButton_display by assumption.
    destruct (rejected (display st) k); [now exists s|].
    exists (s ++ keyText k). now rewrite Hs, append_assoc.
Qed.

Lemma pressAll_keeps_error (ks : list string) (st : State) :
  ~ In "AC" ks -> ~ In "C" ks ->
  (In "=" ks -> forall s, evaluate ("Error" ++ s) = None) ->
  (exists s, display st = "Error" ++ s) ->
  exists s, display (pressAll ks st) = "Error" ++ s.
Proof.
  revert st. induction ks as [|k ks IH]; intros st HAC HC Hev Hst.
  - exact Hst.
  - cbn [In] in HAC, HC, Hev.
    change (pressAll (k :: ks) st) with (pressAll ks (press k st)).
    apply IH; try tauto.
    apply press_keeps_error; try assumption.
    + intros ->. tauto.
    + intros ->. tauto.
    + intros Hk. apply Hev. now left.
Qed.

End Runs.

(** ** The sample evaluator renders well-formed numerals *)

Lemma sample_digits_plain (d : Decimal.uint) :
  occurs isDelimiter (NilEmpty.string_of_uint d) = false.
Proof. induction d; simpl; [reflexivity | exact IHd ..]. Qed.

Lemma numeralOk_plain (s : string) :
  occurs isDelimiter s = false ->
  numeralOk s = true /\ numeralOk (String "-" s) = true.
Proof.
  intros Hs.
  assert (Hp : plainLabel s = true) by (unfold plainLabel; now rewrite Hs).
  pose proof (plain_operator s Hp) as Ho.
  pose proof (plain_dot s Hp) as Hd.
  pose proof (plain_space s Hp) as Hsp.
  unfold numeralOk, consecutiveOperators, consecutiveDots, hasSpace.
  cbn [adjacent occurs first_is].
  rewrite (occurs_none_adjacent _ _ Ho), (occurs_none_adjacent _ _ Hd), Hsp.
  rewrite (occurs_none_first _ _ Ho), (occurs_none_first _ _ Hd).
  assert (Hf : first_is otherOperator s = false).
  { apply occurs_none_first. revert Ho. apply occurs_weaken.
    exact otherOperator_operator. }
  rewrite Hf. split; reflexivity.
Qed.

Lemma sample_render_numeralOk (z : Z) : numeralOk (Sample.render z) = true.
Proof.
  unfold Sample.render, NilZero.string_of_int, NilZero.string_of_uint.
  destruct (Z.to_int z) as [d | d];
    destruct (numeralOk_plain _ (sample_digits_plain d)) as [Hpos Hneg];
    destruct d; first [reflexivity | exact Hpos | exact Hneg].
Qed.

Lemma sample_render_spaceFree (z : Z) : hasSpace (Sample.render z) = false.
Proof.
  pose proof (sample_render_numeralOk z) as H. unfold numeralOk in H.
  rewrite !andb_true_iff, !negb_true_iff in H. tauto.
Qed.

Lemma sample_error_rejected (s : string) :
  evaluate (Evaluator := Sample.evaluator) ("Error" ++ s) = None.
Proof. reflexivity. Qed.

Lemma sample_keys_in (ks : list string) :
  forallb (fun k => includes Sample.keys k) ks = true ->
  Forall (fun k => In k Sample.keys) ks.
Proof.
  rewrite forallb_forall, Forall_forall. intros H k Hk.
  specialize (H k Hk). unfold includes in H.
  apply existsb_exists in H as (k' & Hin & Heq).
  apply String.eqb_eq in Heq. now subst.
Qed.

(** ** Finalization *)

(** C1. On a non-empty expression that the evaluator accepts, finalization
    rounds the number to three decimals ([parseFloat] of [toFixed(3)]),
    appends the record "expression = rounded" at the end of the history,
    sets the expression to the rounded number's string form and switches
    to result mode, both as [calculateResult] alone and through the [=]
    key; in particular "50+2", when it evaluates to a number rendered
    "52", gives expression "52", result mode and the record
    "50+2 = 52". *)
Theorem finalize_success {E : Evaluator} (st : State) (n : number) :
  display st <> "" ->
  evaluate (display st) = Some n ->
  let r := numToString (parseFloat (toFixed3 n)) in
  calculateResult st =
    mkState true r (history st ++ [display st ++ " = " ++ r])
            (partialResult st) /\
  (display (press "=" st) = r /\
   showResult (press "=" st) = true /\
   history (press "=" st) =
     (history st ++ [(display st ++ " = " ++ r)%string])%list) /\
  (display st = "50+2" -> r = "52" ->
   display (calculateResult st) = "52" /\
   showResult (calculateResult st) = true /\
   history (calculateResult st) = (history st ++ ["50+2 = 52"])%list).
Proof.
  intros Hne Hev r.
  pose proof (calculateResult_success st n Hne Hev) as Hcalc.
  unfold round3 in Hcalc. fold r in Hcalc. split; [exact Hcalc|]. split.
  - rewrite press_display, press_showResult, press_history.
    rewrite handleButton_equals.
    rewrite (calculateResult_success (setShowResult false st) n Hne Hev).
    now repeat split.
  - intros Hd Hr. rewrite Hcalc, Hd, Hr. now repeat split.
Qed.

Lemma finalize_success_witness :
  let st := Sample.run ["5"; "0"; "+"; "2"] in
  display st <> "" /\
  evaluate (Evaluator := Sample.evaluator) (display st) = Some 52%Z /\
  calculateResult (E := Sample.evaluator) st =
    mkState true "52" ["50+2 = 52"] "52".
Proof.
  assert (Hne : display (Sample.run ["5"; "0"; "+"; "2"]) <> "")
    by run_differs.
  assert (Hev : evaluate (Evaluator := Sample.evaluator)
                  (display (Sample.run ["5"; "0"; "+"; "2"])) = Some 52%Z)
    by run_equal.
  split; [exact Hne|]. split; [exact Hev|].
  destruct (finalize_success (E := Sample.evaluator)
              (Sample.run ["5"; "0"; "+"; "2"]) 52%Z Hne Hev) as [Hc _].
  run_exact Hc.
Defined.

(** C2. On a non-empty expression that the evaluator rejects, finalization
    sets the expression to the text "Error", leaves the history and the
    display mode as they were, so that the [=] key ends in editing mode;
    the rejection is absorbed by the handler, which returns a state. *)
Theorem finalize_failure {E : Evaluator} (st : State) :
  display st <> "" ->
  evaluate (display st) = None ->
  calculateResult st =
    mkState (showResult st) "Error" (history st) (partialResult st) /\
  (showResult st = false -> showResult (calculateResult st) = false) /\
  display (press "=" st) = "Error" /\
  history (press "=" st) = history st /\
  showResult (press "=" st) = false.
Proof.
  intros Hne Hev.
  pose proof (calculateResult_failure st Hne Hev) as Hcalc.
  split; [exact Hcalc|]. split.
  - intros Hs. now rewrite Hcalc.
  - rewrite press_display, press_showResult, press_history.
    rewrite handleButton_equals.
    rewrite (calculateResult_failure (setShowResult false st) Hne Hev).
    now repeat split.
Qed.

Lemma finalize_failure_witness :
  let st := Sample.run ["5"; "0"; "+"] in
  display st <> "" /\
  evaluate (Evaluator := Sample.evaluator) (display st) = None /\
  calculateResult (E := Sample.evaluator) st = mkState false "Error" [] "".
Proof.
  assert (Hne : display (Sample.run ["5"; "0"; "+"]) <> "") by run_differs.
  assert (Hev : evaluate (Evaluator := Sample.evaluator)
                  (display (Sample.run ["5"; "0"; "+"])) = None)
    by run_equal.
  split; [exact Hne|]. split; [exact Hev|].
  destruct (finalize_failure (E := Sample.evaluator)
              (Sample.run ["5"; "0"; "+"]) Hne Hev) as [Hc _].
  run_exact Hc.
Defined.

(** ** The shape of reachable expressions *)

(** C3, as stated, fails: finalizing "2-7" leaves the expression "-5",
    which starts with a binary operator. *)
Lemma expression_invariant_counterexample :
  let st := Sample.run ["2"; "-"; "7"; "="] in
  reachable (E := Sample.evaluator) Sample.keys st /\
  display st = "-5" /\
  ~ (startsWithOperator (display st) = false /\
     consecutiveOperators (display st) = false /\
     consecutiveDots (display st) = false).
Proof.
  split; [|split].
  - apply reachable_pressAll; [apply reach_mount|].
    apply sample_keys_in. reflexivity.
  - reflexivity.
  - intros [H _]. vm_compute in H. discriminate H.
Qed.

(** C3, amended. With a key table whose other labels are plain and numbers
    rendered as JavaScript renders them, every reachable expression has no
    two consecutive binary operators and no two consecutive decimal
    points, and never starts with [%], [*], [/] or [+]: a leading operator
    can only be a minus sign.  Expressions reached by key presses without
    [=] never start with any binary operator. *)
Theorem reachable_expression_shape {E : Evaluator}
    (keys : list string) (st : State) :
  keyTableOk keys = true ->
  (forall n, numeralOk (numToString n) = true) ->
  reachable keys st ->
  consecutiveOperators (display st) = false /\
  consecutiveDots (display st) = false /\
  first_is otherOperator (display st) = false /\
  (startsWithOperator (display st) = true ->
   first_is (Ascii.eqb "-") (display st) = true) /\
  (forall ks, Forall (fun k => In k keys) ks -> ~ In "=" ks ->
     startsWithOperator (display (pressAll ks (partialEffect initialState)))
     = false).
Proof.
  intros Hkeys Hnum Hreach.
  destruct (reachable_stateOk keys st Hkeys Hnum Hreach)
    as [(Hop & Hdot & _ & Hlead) _].
  repeat split; try assumption.
  - unfold startsWithOperator. destruct (display st) as [|c d];
      [discriminate|].
    cbn [first_is] in *. unfold otherOperator in Hlead. intros Hc.
    rewrite Hc in Hlead. cbn [andb] in Hlead.
    apply negb_false_iff in Hlead. now rewrite Ascii.eqb_sym.
  - intros ks Hks Heq.
    apply (pressAll_no_leading_operator keys ks); try assumption.
    destruct (partialEffect_frame initialState) as (_ & Hd & Hh).
    unfold stateOk. rewrite Hd, Hh. split; [now repeat split | constructor].
Qed.

Lemma reachable_expression_shape_witness :
  let st := Sample.run ["2"; "-"; "7"; "="; "*"; "3"; "."; "."] in
  keyTableOk Sample.keys = true /\
  reachable (E := Sample.evaluator) Sample.keys st /\
  display st = "-5*3." /\
  consecutiveOperators (display st) = false /\
  consecutiveDots (display st) = false /\
  first_is otherOperator (display st) = false.
Proof.
  assert (Hreach : reachable (E := Sample.evaluator) Sample.keys
                     (Sample.run ["2"; "-"; "7"; "="; "*"; "3"; "."; "."])).
  { apply reachable_pressAll; [apply reach_mount|].
    apply sample_keys_in. reflexivity. }
  split; [run_equal|]. split; [exact Hreach|]. split; [run_equal|].
  destruct (reachable_expression_shape (E := Sample.evaluator) Sample.keys
              (Sample.run ["2"; "-"; "7"; "="; "*"; "3"; "."; "."])
              eq_refl sample_render_numeralOk Hreach)
    as (Hop & Hdot & Hlead & _).
  now repeat split.
Defined.

(** ** Display mode *)

(** C4, as stated, fails: with the result "52" shown, pressing [=] again
    finalizes "52" and ends in result mode, not in editing mode. *)
Lemma display_mode_counterexample :
  let st := Sample.run ["5"; "0"; "+"; "2"; "="] in
  reachable (E := Sample.evaluator) Sample.keys st /\
  showResult st = true /\
  showResult (press (E := Sample.evaluator) "=" st) <> false.
Proof.
  split; [|split].
  - apply reachable_pressAll; [apply reach_mount|].
    apply sample_keys_in. reflexivity.
  - run_equal.
  - run_differs.
Qed.

(** C4, amended. Every key press first resets the display mode to
    editing, so its outcome does not depend on the mode it starts in;
    after any key other than [=] the mode is editing, and after [=] it is
    result mode exactly when the expression is non-empty and the
    evaluator accepts it, whether or not a result was being shown. *)
Theorem press_display_mode {E : Evaluator} (k : string) (st : State) :
  handleButton k st = handleButton k (setShowResult false st) /\
  (k <> "=" -> showResult (press k st) = false) /\
  (showResult (press "=" st) = true <->
   display st <> "" /\ evaluate (display st) <> None).
Proof.
  split; [reflexivity|]. split.
  - intros Heq. rewrite press_showResult. now apply handleButton_showResult.
  - rewrite press_showResult, handleButton_equals.
    destruct (String.eqb_spec (display st) "") as [Hd | Hd].
    + rewrite calculateResult_empty by exact Hd. cbn. split; [discriminate|].
      now intros [H _].
    + destruct (evaluate (display st)) as [n|] eqn:Hev.
      * rewrite (calculateResult_success (setShowResult false st) n Hd Hev).
        cbn. split; [|reflexivity]. intros _. split; [exact Hd | discriminate].
      * rewrite (calculateResult_failure (setShowResult false st) Hd Hev).
        cbn. split; [discriminate|]. now intros [_ H].
Qed.

Lemma press_display_mode_witness :
  let st := Sample.run ["5"; "0"; "+"; "2"; "="] in
  showResult st = true /\ "7" <> "=" /\
  showResult (press (E := Sample.evaluator) "7" st) = false.
Proof.
  split; [run_equal|]. split; [discriminate|].
  destruct (press_display_mode (E := Sample.evaluator) "7"
              (Sample.run ["5"; "0"; "+"; "2"; "="])) as (_ & Hk & _).
  apply Hk. discriminate.
Defined.

(** ** Operator keys *)

(** C5. In every state, an operator key appends its character exactly
    when the expression is non-empty and does not end with an operator;
    otherwise the expression is unchanged.  The history is untouched
    either way. *)
Theorem operator_key_accepted_iff {E : Evaluator} (k : string) (st : State) :
  isOperator k = true ->
  let accepted :=
    display st <> "" /\ last_is isOperatorChar (display st) = false in
  (accepted -> display (handleButton k st) = display st ++ k) /\
  (~ accepted -> display (handleButton k st) = display st) /\
  (display (handleButton k st) = display st ++ k <-> accepted) /\
  history (handleButton k st) = history st.
Proof.
  intros Hop accepted.
  assert (Hk : k <> "AC" /\ k <> "C" /\ k <> "=").
  { repeat split; intros ->; discriminate Hop. }
  destruct Hk as (HAC & HC & Heq).
  assert (Hstep : display (handleButton k st) =
                  if (display st =? "") || last_is isOperatorChar (display st)
                  then display st else display st ++ k).
  { rewrite handleButton_display by assumption. unfold rejected.
    rewrite Hop, (isOperator_not_dot k Hop), (keyText_operator k Hop).
    cbn [andb]. now rewrite orb_false_r. }
  assert (Hdec : accepted <->
                 (display st =? "") || last_is isOperatorChar (display st)
                 = false).
  { unfold accepted. rewrite orb_false_iff, String.eqb_neq. tauto. }
  assert (Hacc : accepted -> display (handleButton k st) = display st ++ k).
  { intros Ha. apply Hdec in Ha. now rewrite Hstep, Ha. }
  assert (Hrej : ~ accepted -> display (handleButton k st) = display st).
  { intros Ha. rewrite Hstep.
    destruct ((display st =? "") || last_is isOperatorChar (display st));
      [reflexivity|]. exfalso. now apply Ha, Hdec. }
  split; [exact Hacc|]. split; [exact Hrej|]. split.
  - split; [|exact Hacc]. intros Happ. rewrite Hstep in Happ.
    apply Hdec.
    destruct ((display st =? "") || last_is isOperatorChar (display st));
      [|reflexivity].
    symmetry in Happ. apply append_same_inv in Happ.
    now apply isOperator_nonempty in Hop.
  - now apply handleButton_history_frame.
Qed.

Lemma operator_key_accepted_iff_witness :
  let st := Sample.run ["1"; "2"] in
  isOperator "+" = true /\
  display (handleButton (E := Sample.evaluator) "+" st) = "12+".
Proof.
  split; [reflexivity|].
  destruct (operator_key_accepted_iff (E := Sample.evaluator) "+"
              (Sample.run ["1"; "2"]) eq_refl) as (Hacc & _).
  assert (H : display (handleButton (E := Sample.evaluator) "+"
                         (Sample.run ["1"; "2"]))
              = display (Sample.run ["1"; "2"]) ++ "+").
  { apply Hacc. split; [run_differs | run_equal]. }
  run_exact H.
Defined.

(** ** Partial evaluation *)

(** C6. The effect stores the empty string when a result is shown or the
    expression is empty, otherwise the evaluator's value rounded to three
    decimals, and the empty string when the evaluator rejects the
    expression; in every reachable state the stored partial value is the
    one the effect computes from the current expression and mode.  For
    example "50+", when rejected, gives the empty string, and "50+2", when
    it evaluates to a number rendered "52", gives "52". *)
Theorem partial_value_spec {E : Evaluator} (keys : list string) (st : State) :
  reachable keys st ->
  (showResult st = true \/ display st = "" -> partialResult st = "") /\
  (showResult st = false -> display st <> "" ->
   forall n, evaluate (display st) = Some n ->
     partialResult st = numToString (parseFloat (toFixed3 n))) /\
  (showResult st = false -> display st <> "" ->
   evaluate (display st) = None -> partialResult st = "") /\
  (showResult st = false -> display st = "50+" ->
   evaluate "50+" = None -> partialResult st = "") /\
  (showResult st = false -> display st = "50+2" ->
   forall n, evaluate "50+2" = Some n ->
     numToString (parseFloat (toFixed3 n)) = "52" ->
     partialResult st = "52").
Proof.
  intros Hreach. pose proof (reachable_upToDate keys st Hreach) as Hup.
  unfold upToDate, partialValue, partialEffect in Hup.
  cbn [display showResult] in Hup.
  assert (Hshown : showResult st = true \/ display st = "" ->
                   partialResult st = "").
  { intros [Hs | Hd]; rewrite Hup.
    - now rewrite Hs, orb_true_r.
    - now rewrite Hd. }
  assert (Hsome : showResult st = false -> display st <> "" ->
                  forall n, evaluate (display st) = Some n ->
                  partialResult st = numToString (parseFloat (toFixed3 n))).
  { intros Hs Hd%String.eqb_neq n Hev. rewrite Hup, Hs, Hd, Hev.
    reflexivity. }
  assert (Hnone : showResult st = false -> display st <> "" ->
                  evaluate (display st) = None -> partialResult st = "").
  { intros Hs Hd%String.eqb_neq Hev. rewrite Hup, Hs, Hd, Hev.
    reflexivity. }
  repeat split; try assumption.
  - intros Hs Hd Hev. apply Hnone; rewrite ?Hd; try assumption.
    discriminate.
  - intros Hs Hd n Hev Hr. rewrite <- Hr.
    apply Hsome; rewrite ?Hd; try assumption. discriminate.
Qed.

Lemma partial_value_spec_witness :
  let st := Sample.run ["5"; "0"; "+"; "2"] in
  reachable (E := Sample.evaluator) Sample.keys st /\
  showResult st = false /\ display st = "50+2" /\
  partialResult st = "52".
Proof.
  assert (Hreach : reachable (E := Sample.evaluator) Sample.keys
                     (Sample.run ["5"; "0"; "+"; "2"])).
  { apply reachable_pressAll; [apply reach_mount|].
    apply sample_keys_in. reflexivity. }
  split; [exact Hreach|]. split; [run_equal|]. split; [run_equal|].
  destruct (partial_value_spec (E := Sample.evaluator) Sample.keys
              (Sample.run ["5"; "0"; "+"; "2"]) Hreach)
    as (_ & _ & _ & _ & H).
  exact (H eq_refl eq_refl 52%Z eq_refl eq_refl).
Defined.

(** ** Key sequences *)

(** C7, as stated, fails: after the keys "1" and "AC", neither of them [=]
    nor rejected, the expression is empty, while the concatenation of the
    accepted keys is not. *)
Lemma accepted_concat_counterexample :
  ~ In "=" ["1"; "AC"] /\
  rejected "" "1" = false /\
  display (Sample.run ["1"; "AC"]) = "" /\
  display (Sample.run ["1"; "AC"]) <> acceptedConcat "" ["1"; "AC"].
Proof.
  split; [|split; [|split]].
  - cbn. intros [H | [H | []]]; discriminate H.
  - reflexivity.
  - run_equal.
  - run_differs.
Qed.

(** C7, amended. For every sequence of key presses that includes none of
    [=], [AC] and [C], the resulting expression is the starting expression
    followed by the texts of the accepted keys in order (the label, with
    an opening parenthesis after a function name and "sqrt(" for the
    square root), with rejected keys (a leading operator, a consecutive
    operator, a repeated decimal point) omitted. *)
Theorem accepted_keys_concat {E : Evaluator} (ks : list string) (st : State) :
  ~ In "=" ks -> ~ In "AC" ks -> ~ In "C" ks ->
  display (pressAll ks st) = acceptedConcat (display st) ks /\
  display (pressAll ks (partialEffect initialState)) = acceptedConcat "" ks.
Proof.
  intros Heq HAC HC. split.
  - now apply pressAll_acceptedConcat.
  - rewrite pressAll_acceptedConcat by assumption.
    now destruct (partialEffect_frame initialState) as (_ & -> & _).
Qed.

Lemma accepted_keys_concat_witness :
  let ks := ["+"; "sin"; "3"; "."; "."; "5"; ")"; "*"; "/"; "√"; "4"] in
  ~ In "=" ks /\ ~ In "AC" ks /\ ~ In "C" ks /\
  display (Sample.run ks) = "sin(3.5)*sqrt(4".
Proof.
  assert (H : forall x, In x ["="; "AC"; "C"] ->
                ~ In x ["+"; "sin"; "3"; "."; "."; "5"; ")"; "*"; "/"; "√";
                        "4"]).
  { intros x Hx Hin. cbn in Hx, Hin.
    repeat match goal with
           | H : _ \/ _ |- _ => destruct H
           | H : False |- _ => destruct H
           end; subst; discriminate. }
  split; [apply H; cbn; tauto|]. split; [apply H; cbn; tauto|].
  split; [apply H; cbn; tauto|].
  destruct (accepted_keys_concat (E := Sample.evaluator)
              ["+"; "sin"; "3"; "."; "."; "5"; ")"; "*"; "/"; "√"; "4"]
              (partialEffect (E := Sample.evaluator) initialState))
    as [_ Hc]; try (apply H; cbn; tauto).
  run_exact Hc.
Defined.

(** ** History *)

(** C8. The history is append-only: every event, a key press of any kind
    or a history selection, leaves it unchanged or adds exactly one record
    at the end; keys other than [=], a rejected finalization and
    selections leave it unchanged; over any run of events the earlier
    history stays as a prefix, extended by at most one record per event. *)
Theorem history_append_only {E : Evaluator} (st : State) :
  (forall e, history (fire e st) = history st \/
             exists r, history (fire e st) = (history st ++ [r])%list) /\
  (forall k, k <> "=" -> history (press k st) = history st) /\
  (evaluate (display st) = None -> history (press "=" st) = history st) /\
  (forall item, history (select item st) = history st) /\
  (forall es, exists suffix,
      history (fireAll es st) = (history st ++ suffix)%list /\
      (length suffix <= length es)%nat).
Proof.
  split; [intros e; apply fire_history|].
  split; [intros k Hk; rewrite press_history;
          now apply handleButton_history_frame|].
  split.
  { intros Hev. rewrite press_history, handleButton_equals.
    unfold calculateResult. cbn [display setShowResult]. rewrite Hev.
    now destruct (negb (String.length (display st) =? 0)%nat). }
  split; [|intros es; apply fireAll_history].
  intros item. unfold select.
  now destruct (commit_frame st (handleHistoryClick item st)) as (_ & _ & ->).
Qed.

Lemma history_append_only_witness :
  let st := Sample.run ["2"; "-"; "7"; "="] in
  let es := [Press "AC"; Press "7"; Press "="; Press "+"; Press "+";
             Press "="; Select "2-7 = -5"; Press "C"] in
  history st = ["2-7 = -5"] /\
  history (fireAll (E := Sample.evaluator) es st) = ["2-7 = -5"; "7 = 7"] /\
  exists suffix,
    history (fireAll (E := Sample.evaluator) es st)
    = (history st ++ suffix)%list /\
    (length suffix <= length es)%nat.
Proof.
  split; [run_equal|]. split; [run_equal|].
  destruct (history_append_only (E := Sample.evaluator)
              (Sample.run ["2"; "-"; "7"; "="])) as (_ & _ & _ & _ & Hrun).
  apply Hrun.
Defined.

(** C9. With a key table whose labels have no blank and numbers rendered
    without blanks, no reachable expression contains a blank, and so the
    record that a successful finalization appends, the single string
    "expression = result", splits at " = " back to exactly the finalized
    expression: selecting it from any later state restores that
    expression and editing mode. *)
Theorem finalize_select_roundtrip {E : Evaluator}
    (keys : list string) (st : State) (n : number) :
  keysSpaceFree keys = true ->
  (forall m, hasSpace (numToString m) = false) ->
  reachable keys st ->
  display st <> "" ->
  evaluate (display st) = Some n ->
  hasSpace (display st) = false /\
  exists item,
    history (press "=" st) = (history st ++ [item])%list /\
    item = display st ++ " = " ++ numToString (parseFloat (toFixed3 n)) /\
    forall st', display (select item st') = display st /\
                showResult (select item st') = false.
Proof.
  intros Hkeys Hnum Hreach Hne Hev.
  destruct (reachable_spaceFree keys st Hkeys Hnum Hreach) as [Hsp _].
  split; [exact Hsp|].
  exists (display st ++ " = " ++ numToString (round3 n)).
  split; [|split; [reflexivity|]].
  - rewrite press_history, handleButton_equals.
    now rewrite (calculateResult_success (setShowResult false st) n Hne Hev).
  - intros st'. unfold select.
    destruct (commit_frame st' (handleHistoryClick
                (display st ++ " = " ++ numToString (round3 n)) st'))
      as (-> & -> & _).
    unfold handleHistoryClick. cbn [display showResult setShowResult setDisplay].
    split; [now apply split_head_item | reflexivity].
Qed.

Lemma finalize_select_roundtrip_witness :
  let st := Sample.run ["2"; "-"; "7"; "="; "+"; "3"] in
  keysSpaceFree Sample.keys = true /\
  reachable (E := Sample.evaluator) Sample.keys st /\
  display st = "-5+3" /\
  history (press (E := Sample.evaluator) "=" st) = ["2-7 = -5"; "-5+3 = -2"] /\
  display (select (E := Sample.evaluator) "-5+3 = -2"
             (press (E := Sample.evaluator) "=" st)) = "-5+3".
Proof.
  assert (Hreach : reachable (E := Sample.evaluator) Sample.keys
                     (Sample.run ["2"; "-"; "7"; "="; "+"; "3"])).
  { apply reachable_pressAll; [apply reach_mount|].
    apply sample_keys_in. reflexivity. }
  split; [reflexivity|]. split; [exact Hreach|]. split; [run_equal|].
  destruct (finalize_select_roundtrip (E := Sample.evaluator) Sample.keys
              (Sample.run ["2"; "-"; "7"; "="; "+"; "3"]) (-2)%Z
              eq_refl sample_render_spaceFree Hreach)
    as (_ & item & Hhist & Hitem & Hsel).
  - run_differs.
  - run_equal.
  - rewrite Hitem in Hhist, Hsel. split; [run_exact Hhist|].
    destruct (Hsel (press (E := Sample.evaluator) "="
                      (Sample.run ["2"; "-"; "7"; "="; "+"; "3"])))
      as [Hd _].
    run_exact Hd.
Defined.

(** ** The error text *)

(** C10. After a rejected finalization the expression is the text "Error",
    and it stays: any key other than [AC], [C] and [=] appends its text to
    it (the digit "5" gives "Error5"), and over any run of keys without
    [AC] and [C] the expression still starts with "Error", a further [=]
    included as long as the evaluator rejects expressions that start with
    that text.  [AC] clears it, [C] shortens it to "Erro" and a history
    selection replaces it. *)
Theorem error_persists {E : Evaluator} (st : State) :
  display st <> "" ->
  evaluate (display st) = None ->
  let failed := press "=" st in
  display failed = "Error" /\
  (forall k, k <> "AC" -> k <> "C" -> k <> "=" ->
     display (press k failed) = "Error" ++ keyText k) /\
  display (press "5" failed) = "Error5" /\
  (forall ks, ~ In "AC" ks -> ~ In "C" ks -> ~ In "=" ks ->
     exists s, display (pressAll ks failed) = "Error" ++ s) /\
  ((forall s, evaluate ("Error" ++ s) = None) ->
   forall ks, ~ In "AC" ks -> ~ In "C" ks ->
     exists s, display (pressAll ks failed) = "Error" ++ s) /\
  display (press "AC" failed) = "" /\
  display (press "C" failed) = "Erro" /\
  (forall item, display (select item failed) = split_head " = " item).
Proof.
  intros Hne Hev failed.
  assert (Hfailed : display failed = "Error").
  { unfold failed. rewrite press_display, handleButton_equals.
    now rewrite (calculateResult_failure (setShowResult false st) Hne Hev). }
  assert (Hstep : forall k, k <> "AC" -> k <> "C" -> k <> "=" ->
                    display (press k failed) = "Error" ++ keyText k).
  { intros k HAC HC Heq.
    rewrite press_display, handleButton_display by assumption.
    rewrite Hfailed. unfold rejected. cbn.
    now rewrite !andb_false_r. }
  split; [exact Hfailed|]. split; [exact Hstep|]. split.
  { apply (Hstep "5"); discriminate. }
  split.
  { intros ks HAC HC Heq. apply pressAll_keeps_error; try assumption.
    - tauto.
    - now exists "". }
  split.
  { intros Hrej ks HAC HC. apply pressAll_keeps_error; try assumption.
    - intros _. exact Hrej.
    - now exists "". }
  split; [|split].
  - rewrite press_display. reflexivity.
  - rewrite press_display. change (display (handleButton "C" failed))
      with (slice_init (display failed)). now rewrite Hfailed.
  - intros item. unfold select.
    now destruct (commit_frame failed (handleHistoryClick item failed))
      as (_ & -> & _).
Qed.

Lemma error_persists_witness :
  let st := Sample.run ["5"; "0"; "+"] in
  display st <> "" /\
  evaluate (Evaluator := Sample.evaluator) (display st) = None /\
  display (press (E := Sample.evaluator) "5"
             (press (E := Sample.evaluator) "=" st)) = "Error5".
Proof.
  assert (Hne : display (Sample.run ["5"; "0"; "+"]) <> "") by run_differs.
  assert (Hev : evaluate (Evaluator := Sample.evaluator)
                  (display (Sample.run ["5"; "0"; "+"])) = None)
    by run_equal.
  split; [exact Hne|]. split; [exact Hev|].
  destruct (error_persists (E := Sample.evaluator)
              (Sample.run ["5"; "0"; "+"]) Hne Hev) as (_ & _ & H5 & _).
  exact H5.
Defined.

(** ** Editing keys *)

Lemma append_nil_r (s : string) : s ++ "" = s.
Proof. induction s as [|a s IH]; simpl; [reflexivity | now rewrite IH]. Qed.

Lemma append_inv_head (s t u : string) : s ++ t = s ++ u -> t = u.
Proof.
  induction s as [|a s IH]; simpl; [exact (fun H => H)|].
  intros H. injection H as H. exact (IH H).
Qed.

Lemma slice_init_app (d t : string) :
  t <> "" -> slice_init (d ++ t) = d ++ slice_init t.
Proof.
  intros Ht. induction d as [|a d IH]; [reflexivity|].
  change (String a d ++ t) with (String a (d ++ t)).
  cbn [slice_init]. rewrite IH.
  destruct (d ++ t) eqn:Hdt; [|reflexivity].
  destruct d; [now cbn in Hdt | discriminate Hdt].
Qed.

Lemma length_slice_init (s : string) :
  String.length (slice_init s) = (String.length s - 1)%nat.
Proof.
  induction s as [|a s IH]; [reflexivity|].
  destruct s as [|b s]; [reflexivity|].
  change (S (String.length (slice_init (String b s)))
          = (S (S (String.length s)) - 1)%nat).
  rewrite IH. cbn [String.length]. lia.
Qed.

Lemma state_ext (a b : State) :
  showResult a = showResult b -> display a = display b ->
  history a = history b -> partialResult a = partialResult b -> a = b.
Proof. destruct a, b; cbn; intros; subst; reflexivity. Qed.

Lemma last_is_operator (k : string) :
  isOperator k = true -> last_is isOperatorChar k = true.
Proof.
  intros H.
  destruct (isOperator_cases k H) as [-> | [-> | [-> | [-> | ->]]]];
    reflexivity.
Qed.

Section Editing.

Context {E : Evaluator}.

Lemma press_upToDate (k : string) (st : State) :
  upToDate st -> upToDate (press k st).
Proof.
  intros H. apply commit_upToDate; [exact H|].
  apply handleButton_partialResult.
Qed.

(** A key press whose handler empties the expression and leaves editing
    mode and the history in place ends in the cleared state. *)
Lemma press_cleared (k : string) (st : State) :
  upToDate st ->
  display (handleButton k st) = "" ->
  showResult (handleButton k st) = false ->
  history (handleButton k st) = history st ->
  press k st = mkState false "" (history st) "".
Proof.
  intros Hup Hd Hs Hh.
  pose proof (press_upToDate k st Hup) as Hup'. unfold upToDate in Hup'.
  rewrite press_display, press_showResult, Hd, Hs in Hup'.
  apply state_ext; cbn [showResult display history partialResult].
  - now rewrite press_showResult.
  - now rewrite press_display.
  - now rewrite press_history.
  - exact Hup'.
Qed.

Lemma press_C_display (st : State) :
  display (press "C" st) = slice_init (display st).
Proof. now rewrite press_display. Qed.

Lemma operator_step (k : string) (st : State) :
  isOperator k = true ->
  display (press k st) =
  if (display st =? "") || last_is isOperatorChar (display st)
  then display st else display st ++ k.
Proof.
  intros Hop. rewrite press_display, handleButton_display;
    try (intros ->; discriminate Hop).
  unfold rejected.
  rewrite Hop, (isOperator_not_dot k Hop), (keyText_operator k Hop).
  cbn [andb]. now rewrite orb_false_r.
Qed.

Lemma dot_step (st : State) :
  display (press "." st) =
  if last_is isDot (display st) then display st else display st ++ ".".
Proof.
  rewrite press_display, handleButton_display by discriminate. reflexivity.
Qed.

End Editing.

(** X1. From any reachable state the [AC] key gives the cleared state:
    empty expression, editing mode, empty partial value, and the history
    as it was. *)
Theorem clear_resets {E : Evaluator} (keys : list string) (st : State) :
  reachable keys st ->
  press "AC" st = mkState false "" (history st) "".
Proof.
  intros Hreach. apply press_cleared; try reflexivity.
  now apply (reachable_upToDate keys).
Qed.

Lemma clear_resets_witness :
  let st := Sample.run ["2"; "-"; "7"; "="; "+"; "3"] in
  reachable (E := Sample.evaluator) Sample.keys st /\
  st = mkState false "-5+3" ["2-7 = -5"] "-2" /\
  press (E := Sample.evaluator) "AC" st = mkState false "" ["2-7 = -5"] "".
Proof.
  assert (Hreach : reachable (E := Sample.evaluator) Sample.keys
                     (Sample.run ["2"; "-"; "7"; "="; "+"; "3"])).
  { apply reachable_pressAll; [apply reach_mount|].
    apply sample_keys_in. reflexivity. }
  split; [exact Hreach|]. split; [run_equal|].
  pose proof (clear_resets (E := Sample.evaluator) Sample.keys
                (Sample.run ["2"; "-"; "7"; "="; "+"; "3"]) Hreach) as H.
  run_exact H.
Defined.

(** X2. On an empty expression the keys [=], [C] and every operator key
    change nothing: from a reachable state they end in the cleared state
    with the same history, so [=] neither shows "Error" nor records
    anything. *)
Theorem empty_expression_ignores {E : Evaluator}
    (keys : list string) (k : string) (st : State) :
  reachable keys st ->
  display st = "" ->
  k = "=" \/ k = "C" \/ isOperator k = true ->
  press k st = mkState false "" (history st) "".
Proof.
  intros Hreach Hd Hk.
  pose proof (reachable_upToDate keys st Hreach) as Hup.
  destruct Hk as [-> | [-> | Hop]].
  - apply press_cleared; try assumption;
      rewrite handleButton_equals, calculateResult_empty by exact Hd;
      try reflexivity. exact Hd.
  - apply press_cleared; try assumption; try reflexivity.
    change (slice_init (display st) = ""). now rewrite Hd.
  - assert (Hne : k <> "=") by (intros ->; discriminate Hop).
    apply press_cleared; try assumption.
    + rewrite <- press_display, operator_step by exact Hop.
      now rewrite Hd.
    + now apply handleButton_showResult.
    + now apply handleButton_history_frame.
Qed.

Lemma empty_expression_ignores_witness :
  let st := Sample.run ["7"; "="; "AC"] in
  reachable (E := Sample.evaluator) Sample.keys st /\
  display st = "" /\
  press (E := Sample.evaluator) "=" st = mkState false "" ["7 = 7"] "".
Proof.
  assert (Hreach : reachable (E := Sample.evaluator) Sample.keys
                     (Sample.run ["7"; "="; "AC"])).
  { apply reachable_pressAll; [apply reach_mount|].
    apply sample_keys_in. reflexivity. }
  assert (Hd : display (Sample.run ["7"; "="; "AC"]) = "") by run_equal.
  split; [exact Hreach|]. split; [exact Hd|].
  pose proof (empty_expression_ignores (E := Sample.evaluator) Sample.keys
                "=" (Sample.run ["7"; "="; "AC"]) Hreach Hd
                (or_introl eq_refl)) as H.
  run_exact H.
Defined.

(** X3. The [C] key undoes an accepted key whose text is one character;
    in general it removes the last character of the text the key added,
    so that after a function key it leaves the function name without its
    parenthesis. *)
Theorem backspace_undoes {E : Evaluator} (k : string) (st : State) :
  k <> "AC" -> k <> "C" -> k <> "=" ->
  rejected (display st) k = false ->
  keyText k <> "" ->
  display (press "C" (press k st)) = display st ++ slice_init (keyText k) /\
  (forall c, keyText k = String c "" ->
     display (press "C" (press k st)) = display st) /\
  (includes ["sin"; "cos"; "tan"] k = true ->
     display (press "C" (press k st)) = display st ++ k).
Proof.
  intros HAC HC Heq Hrej Htext.
  assert (Hgen : display (press "C" (press k st))
                 = display st ++ slice_init (keyText k)).
  { rewrite press_C_display, press_display, handleButton_display
      by assumption.
    rewrite Hrej. now apply slice_init_app. }
  split; [exact Hgen|]. split.
  - intros c Hc. rewrite Hgen, Hc. cbn. apply append_nil_r.
  - intros Hfun. rewrite Hgen. f_equal.
    unfold includes in Hfun. cbn [existsb] in Hfun.
    rewrite !orb_true_iff, !String.eqb_eq in Hfun.
    destruct Hfun as [-> | [-> | [-> | Hfun]]];
      try discriminate Hfun; reflexivity.
Qed.

Lemma backspace_undoes_witness :
  let st := Sample.run ["1"; "2"; "+"] in
  rejected (display st) "3" = false /\
  display (press (E := Sample.evaluator) "C"
             (press (E := Sample.evaluator) "3" st)) = "12+" /\
  display (press (E := Sample.evaluator) "C"
             (press (E := Sample.evaluator) "sin" st)) = "12+sin".
Proof.
  assert (H3 : rejected (display (Sample.run ["1"; "2"; "+"])) "3" = false)
    by run_equal.
  assert (Hsin : rejected (display (Sample.run ["1"; "2"; "+"])) "sin" = false)
    by run_equal.
  split; [exact H3|]. split.
  - destruct (backspace_undoes (E := Sample.evaluator) "3"
                (Sample.run ["1"; "2"; "+"])) as (_ & Hone & _);
      try discriminate; try exact H3.
    pose proof (Hone "3"%char eq_refl) as H. run_exact H.
  - destruct (backspace_undoes (E := Sample.evaluator) "sin"
                (Sample.run ["1"; "2"; "+"])) as (_ & _ & Hfun);
      try discriminate; try exact Hsin.
    pose proof (Hfun eq_refl) as H. run_exact H.
Defined.

(** X4. Pressing [C] n times shortens the expression by n characters,
    stopping at the empty expression; what remains is a prefix of the
    expression it started from, and as many presses as the expression is
    long clear it. *)
Theorem backspace_count {E : Evaluator} (n : nat) (st : State) :
  let d := display (pressAll (repeat "C" n) st) in
  String.length d = (String.length (display st) - n)%nat /\
  (exists t, display st = d ++ t) /\
  ((String.length (display st) <= n)%nat -> d = "").
Proof.
  cbv zeta.
  assert (Hmain : forall m s,
            String.length (display (pressAll (repeat "C" m) s))
            = (String.length (display s) - m)%nat /\
            exists t, display s = display (pressAll (repeat "C" m) s) ++ t).
  { induction m as [|m IH]; intros s.
    - cbn [repeat pressAll fold_left]. split; [lia|].
      exists "". now rewrite append_nil_r.
    - change (pressAll (repeat "C" (S m)) s)
        with (pressAll (repeat "C" m) (press "C" s)).
      destruct (IH (press "C" s)) as [Hlen [t Ht]].
      rewrite press_C_display in Hlen, Ht. split.
      + rewrite Hlen, length_slice_init. lia.
      + exists (t ++ slice_last (display s)).
        rewrite <- append_assoc, <- Ht. symmetry. apply slice_init_last. }
  destruct (Hmain n st) as [Hlen Hpre].
  split; [exact Hlen|]. split; [exact Hpre|].
  intros Hle.
  destruct (display (pressAll (repeat "C" n) st)); [reflexivity|].
  cbn [String.length] in Hlen. lia.
Qed.

Lemma backspace_count_witness :
  display (pressAll (E := Sample.evaluator) (repeat "C" 3)
             (Sample.run ["1"; "2"; "+"; "sin"])) = "12+s" /\
  ((String.length (display (Sample.run ["1"; "2"])) <= 5)%nat ->
   display (pressAll (E := Sample.evaluator) (repeat "C" 5)
              (Sample.run ["1"; "2"])) = "").
Proof.
  split; [run_equal|].
  apply (backspace_count (E := Sample.evaluator) 5 (Sample.run ["1"; "2"])).
Defined.

(** ** Decimal points and repeated keys *)

(** X5. The decimal-point key is appended exactly when the expression does
    not already end with a decimal point; it is accepted on the empty
    expression, and a second point in the same run of digits is accepted
    as long as a digit separates the two. *)
Theorem decimal_point_accepted_iff {E : Evaluator} (st : State) :
  (display (press "." st) = display st ++ "." <->
   last_is isDot (display st) = false) /\
  (last_is isDot (display st) = true ->
   display (press "." st) = display st) /\
  (display st = "" -> display (press "." st) = ".") /\
  (last_is isDot (display st) = false ->
   display (pressAll ["."; "2"; "."] st) = display st ++ ".2.") /\
  history (press "." st) = history st.
Proof.
  pose proof (dot_step st) as Hstep.
  split; [|split; [|split; [|split]]].
  - split.
    + intros Happ. rewrite Hstep in Happ.
      destruct (last_is isDot (display st)); [|reflexivity].
      symmetry in Happ. apply append_same_inv in Happ. discriminate Happ.
    + intros Hl. now rewrite Hstep, Hl.
  - intros Hl. now rewrite Hstep, Hl.
  - intros Hd. now rewrite Hstep, Hd.
  - intros Hl.
    change (pressAll ["."; "2"; "."] st)
      with (press "." (press "2" (press "." st))).
    rewrite dot_step.
    rewrite (press_display "2"), handleButton_display by discriminate.
    rewrite Hstep, Hl.
    change (rejected (display st ++ ".") "2") with false. cbv iota.
    change (keyText "2") with "2".
    rewrite last_is_app. cbn. now rewrite !append_assoc.
  - rewrite press_history. now apply handleButton_history_frame.
Qed.

Lemma decimal_point_accepted_iff_witness :
  let st := Sample.run ["1"] in
  last_is isDot (display st) = false /\
  display (pressAll (E := Sample.evaluator) ["."; "2"; "."] st) = "1.2.".
Proof.
  assert (Hl : last_is isDot (display (Sample.run ["1"])) = false)
    by run_equal.
  split; [exact Hl|].
  destruct (decimal_point_accepted_iff (E := Sample.evaluator)
              (Sample.run ["1"])) as (_ & _ & _ & Hrun & _).
  pose proof (Hrun Hl) as H. run_exact H.
Defined.

(** X6. Keys other than [=], [AC] and [C] never alter what has been typed:
    after any run of such keys the earlier expression is a prefix of the
    new one, and the history is the same. *)
Theorem typed_text_preserved {E : Evaluator} (ks : list string) (st : State) :
  ~ In "=" ks -> ~ In "AC" ks -> ~ In "C" ks ->
  (exists t, display (pressAll ks st) = display st ++ t) /\
  history (pressAll ks st) = history st /\
  showResult (pressAll ks st) = match ks with
                                | [] => showResult st
                                | _ :: _ => false
                                end.
Proof.
  revert st. induction ks as [|k ks IH]; intros st Heq HAC HC.
  - split; [|split]; try reflexivity. exists "". cbn.
    now rewrite append_nil_r.
  - cbn [In] in Heq, HAC, HC.
    change (pressAll (k :: ks) st) with (pressAll ks (press k st)).
    destruct (IH (press k st)) as ([t Ht] & Hh & Hs); try tauto.
    assert (Hk : k <> "=") by (intros ->; tauto).
    split; [|split].
    + rewrite Ht, press_display, handleButton_display
        by (intros ->; tauto).
      destruct (rejected (display st) k); [now exists t|].
      exists (keyText k ++ t). apply append_assoc.
    + rewrite Hh, press_history. now apply handleButton_history_frame.
    + rewrite Hs. destruct ks; [|reflexivity].
      rewrite press_showResult. now apply handleButton_showResult.
Qed.

Lemma typed_text_preserved_witness :
  let ks := ["+"; "("; "."; "."; "cos"; "9"] in
  let st := Sample.run ["4"; "="] in
  ~ In "=" ks /\ ~ In "AC" ks /\ ~ In "C" ks /\
  exists t, display (pressAll (E := Sample.evaluator) ks st) = "4" ++ t.
Proof.
  assert (H : forall x, In x ["="; "AC"; "C"] ->
                ~ In x ["+"; "("; "."; "."; "cos"; "9"]).
  { intros x Hx Hin. cbn in Hx, Hin.
    repeat match goal with
           | H : _ \/ _ |- _ => destruct H
           | H : False |- _ => destruct H
           end; subst; discriminate. }
  split; [apply H; cbn; tauto|]. split; [apply H; cbn; tauto|].
  split; [apply H; cbn; tauto|].
  destruct (typed_text_preserved (E := Sample.evaluator)
              ["+"; "("; "."; "."; "cos"; "9"] (Sample.run ["4"; "="]))
    as ([t Ht] & _); try (apply H; cbn; tauto).
  exists t. rewrite Ht.
  replace (display (Sample.run ["4"; "="])) with "4" by run_equal.
  reflexivity.
Defined.

(** X7. A second operator key never replaces or follows the first: after
    any operator key, a further operator key leaves the expression as it
    is, and likewise a second decimal point; starting from the empty
    expression, any run of operator keys leaves it empty. *)
Theorem repeated_operator_ignored {E : Evaluator} (a b : string) (st : State) :
  isOperator a = true -> isOperator b = true ->
  display (press b (press a st)) = display (press a st) /\
  display (press "." (press "." st)) = display (press "." st) /\
  (forall ks, forallb isOperator ks = true -> display st = "" ->
     display (pressAll ks st) = "").
Proof.
  intros Ha Hb. split; [|split].
  - rewrite (operator_step b) by exact Hb.
    rewrite (operator_step a) by exact Ha.
    destruct ((display st =? "") || last_is isOperatorChar (display st))
      eqn:Hrej.
    + now rewrite Hrej.
    + rewrite last_is_app.
      destruct (a =? "") eqn:Hae.
      * apply String.eqb_eq in Hae. subst a. discriminate Ha.
      * now rewrite (last_is_operator a Ha), orb_true_r.
  - rewrite (dot_step (press "." st)), dot_step.
    destruct (last_is isDot (display st)) eqn:Hl; [now rewrite Hl|].
    rewrite last_is_app. reflexivity.
  - intros ks. revert st. induction ks as [|k ks IH]; intros st Hks Hd.
    + exact Hd.
    + cbn [forallb] in Hks. apply andb_true_iff in Hks as [Hk Hks].
      change (pressAll (k :: ks) st) with (pressAll ks (press k st)).
      apply IH; [exact Hks|].
      rewrite operator_step by exact Hk. now rewrite Hd.
Qed.

Lemma repeated_operator_ignored_witness :
  let st := Sample.run ["8"] in
  isOperator "+" = true /\ isOperator "-" = true /\
  display (press (E := Sample.evaluator) "+" st) = "8+" /\
  display (press (E := Sample.evaluator) "-"
             (press (E := Sample.evaluator) "+" st)) = "8+".
Proof.
  split; [reflexivity|]. split; [reflexivity|]. split; [run_equal|].
  destruct (repeated_operator_ignored (E := Sample.evaluator) "+" "-"
              (Sample.run ["8"]) eq_refl eq_refl) as (H & _).
  rewrite H. run_equal.
Defined.

(** ** What the history holds *)

Section Records.

Context {E : Evaluator}.
Variable keys : list string.

Lemma reachable_recorded (st : State) :
  reachable keys st -> Forall (recorded keys) (history st).
Proof.
  induction 1 as [|k st Hreach IH Hk|item st Hreach IH Hitem].
  - destruct (partialEffect_frame initialState) as (_ & _ & ->).
    constructor.
  - rewrite press_history.
    destruct (String.eqb_spec k "=") as [-> | Hne];
      [|now rewrite handleButton_history_frame].
    rewrite handleButton_equals.
    destruct (String.eqb_spec (display st) "") as [Hd | Hd].
    { now rewrite calculateResult_empty. }
    destruct (evaluate (display st)) as [n|] eqn:Hev.
    + rewrite (calculateResult_success (setShowResult false st) n Hd Hev).
      cbn [history setShowResult display]. apply Forall_app.
      split; [exact IH|]. constructor; [|constructor].
      exists st, n. now repeat split.
    + now rewrite (calculateResult_failure (setShowResult false st) Hd Hev).
  - unfold select.
    now destruct (commit_frame st (handleHistoryClick item st))
      as (_ & _ & ->).
Qed.

(** A recorded item splits back to its expression when no reachable
    expression has a blank. *)
Lemma recorded_split (item : string) :
  keysSpaceFree keys = true ->
  (forall m, hasSpace (numToString m) = false) ->
  recorded keys item ->
  exists n,
    split_head " = " item <> "" /\
    evaluate (split_head " = " item) = Some n /\
    item = split_head " = " item ++ " = " ++ numToString (round3 n).
Proof.
  intros Hkeys Hnum (st0 & n & Hreach & Hne & Hev & ->).
  destruct (reachable_spaceFree keys st0 Hkeys Hnum Hreach) as [Hsp _].
  rewrite (split_head_item _ _ Hsp). now exists n.
Qed.

End Records.

(** X8. Every record in the history of a reachable state is an equation
    the evaluator vouches for: it is a non-empty expression that was shown
    in some reachable state and that the evaluator accepts, then " = ",
    then the rendering of its value rounded to three decimals.  The text
    "Error" and empty expressions are never recorded. *)
Theorem history_records_true {E : Evaluator}
    (keys : list string) (st : State) (item : string) :
  reachable keys st ->
  In item (history st) ->
  exists d n,
    d <> "" /\
    evaluate d = Some n /\
    item = d ++ " = " ++ numToString (parseFloat (toFixed3 n)) /\
    exists st0, reachable keys st0 /\ display st0 = d.
Proof.
  intros Hreach Hin.
  pose proof (reachable_recorded keys st Hreach) as Hall.
  rewrite Forall_forall in Hall.
  destruct (Hall item Hin) as (st0 & n & Hst0 & Hne & Hev & Hitem).
  exists (display st0), n. repeat split; try assumption.
  now exists st0.
Qed.

Lemma history_records_true_witness :
  let st := Sample.run ["2"; "-"; "7"; "="; "+"; "="; "AC"; "4"; "="] in
  reachable (E := Sample.evaluator) Sample.keys st /\
  history st = ["2-7 = -5"; "4 = 4"] /\
  exists d n,
    d <> "" /\ evaluate (Evaluator := Sample.evaluator) d = Some n /\
    "4 = 4" = d ++ " = " ++ Sample.render (Sample.parse (Sample.render n ++ ".000")).
Proof.
  assert (Hreach : reachable (E := Sample.evaluator) Sample.keys
            (Sample.run ["2"; "-"; "7"; "="; "+"; "="; "AC"; "4"; "="])).
  { apply reachable_pressAll; [apply reach_mount|].
    apply sample_keys_in. reflexivity. }
  assert (Hh : history
            (Sample.run ["2"; "-"; "7"; "="; "+"; "="; "AC"; "4"; "="])
            = ["2-7 = -5"; "4 = 4"]) by run_equal.
  split; [exact Hreach|]. split; [exact Hh|].
  destruct (history_records_true (E := Sample.evaluator) Sample.keys
              (Sample.run ["2"; "-"; "7"; "="; "+"; "="; "AC"; "4"; "="])
              "4 = 4" Hreach) as (d & n & Hd & Hev & Hitem & _).
  { rewrite Hh. cbn. tauto. }
  exists d, n. now repeat split.
Defined.

(** X9. Whenever a reachable state shows a result, that result is the
    right-hand side of the last history record, whose left-hand side is a
    non-empty expression the evaluator accepted; no partial value is
    stored or rendered beside it. *)
Theorem shown_result_is_last_record {E : Evaluator}
    (keys : list string) (st : State) :
  reachable keys st ->
  showResult st = true ->
  (exists d n h,
     d <> "" /\ evaluate d = Some n /\
     display st = numToString (parseFloat (toFixed3 n)) /\
     history st = (h ++ [(d ++ " = " ++ display st)%string])%list) /\
  partialResult st = "" /\
  partialLine st = None.
Proof.
  intros Hreach Hs.
  pose proof (reachable_upToDate keys st Hreach) as Hup.
  split; [|split].
  - destruct Hreach as [|k st Hreach Hk|item st Hreach Hitem].
    + destruct (partialEffect_frame initialState) as (Hf & _).
      rewrite Hf in Hs. discriminate Hs.
    + rewrite press_showResult in Hs. rewrite press_display, press_history.
      destruct (String.eqb_spec k "=") as [-> | Hne];
        [|rewrite handleButton_showResult in Hs by exact Hne;
          discriminate Hs].
      rewrite handleButton_equals in *.
      destruct (String.eqb_spec (display st) "") as [Hd | Hd].
      { rewrite calculateResult_empty in Hs by exact Hd. discriminate Hs. }
      destruct (evaluate (display st)) as [n|] eqn:Hev.
      * rewrite (calculateResult_success (setShowResult false st) n Hd Hev).
        exists (display st), n, (history st). now repeat split.
      * rewrite (calculateResult_failure (setShowResult false st) Hd Hev)
          in Hs. discriminate Hs.
    + unfold select in Hs.
      destruct (commit_frame st (handleHistoryClick item st)) as (Hf & _).
      rewrite Hf in Hs. discriminate Hs.
  - unfold upToDate, partialValue, partialEffect in Hup.
    cbn [display showResult] in Hup.
    now rewrite Hup, Hs, orb_true_r.
  - unfold partialLine. now rewrite Hs, andb_false_r.
Qed.

Lemma shown_result_is_last_record_witness :
  let st := Sample.run ["2"; "-"; "7"; "="; "+"; "3"; "="] in
  reachable (E := Sample.evaluator) Sample.keys st /\
  st = mkState true "-2" ["2-7 = -5"; "-5+3 = -2"] "" /\
  partialLine st = None.
Proof.
  assert (Hreach : reachable (E := Sample.evaluator) Sample.keys
            (Sample.run ["2"; "-"; "7"; "="; "+"; "3"; "="])).
  { apply reachable_pressAll; [apply reach_mount|].
    apply sample_keys_in. reflexivity. }
  split; [exact Hreach|]. split; [run_equal|].
  apply (shown_result_is_last_record (E := Sample.evaluator) Sample.keys
           (Sample.run ["2"; "-"; "7"; "="; "+"; "3"; "="]) Hreach).
  run_equal.
Defined.

(** X10. Selecting any record of the history of a reachable state puts
    its expression on the display in editing mode, with the recorded
    result as the live partial value: the record reads
    expression, " = ", partial value.  The expression is never empty and
    the history stays as it was. *)
Theorem select_previews_result {E : Evaluator}
    (keys : list string) (st : State) (item : string) :
  keysSpaceFree keys = true ->
  (forall m, hasSpace (numToString m) = false) ->
  reachable keys st ->
  In item (history st) ->
  let st' := select item st in
  showResult st' = false /\
  display st' <> "" /\
  item = display st' ++ " = " ++ partialResult st' /\
  history st' = history st.
Proof.
  intros Hkeys Hnum Hreach Hin st'.
  pose proof (reachable_recorded keys st Hreach) as Hall.
  rewrite Forall_forall in Hall.
  destruct (recorded_split keys item Hkeys Hnum (Hall item Hin))
    as (n & Hne & Hev & Hitem).
  pose proof (reachable_upToDate keys st'
                (reach_select keys item st Hreach Hin)) as Hup.
  unfold st', select in *.
  destruct (commit_frame st (handleHistoryClick item st))
    as (Hs & Hd & Hh).
  change (display (handleHistoryClick item st))
    with (split_head " = " item) in Hd.
  change (showResult (handleHistoryClick item st)) with false in Hs.
  change (history (handleHistoryClick item st)) with (history st) in Hh.
  unfold upToDate, partialValue, partialEffect in Hup.
  cbn [display showResult] in Hup. rewrite Hs, Hd, Hev in Hup.
  apply String.eqb_neq in Hne. rewrite Hne in Hup. cbn in Hup.
  apply String.eqb_neq in Hne.
  rewrite Hs, Hd, Hh, Hup. now repeat split.
Qed.

Lemma select_previews_result_witness :
  let st := Sample.run ["2"; "-"; "7"; "="; "AC"; "9"] in
  keysSpaceFree Sample.keys = true /\
  reachable (E := Sample.evaluator) Sample.keys st /\
  In "2-7 = -5" (history st) /\
  select (E := Sample.evaluator) "2-7 = -5" st
  = mkState false "2-7" ["2-7 = -5"] "-5".
Proof.
  assert (Hreach : reachable (E := Sample.evaluator) Sample.keys
            (Sample.run ["2"; "-"; "7"; "="; "AC"; "9"])).
  { apply reachable_pressAll; [apply reach_mount|].
    apply sample_keys_in. reflexivity. }
  assert (Hin : In "2-7 = -5"
                  (history (Sample.run ["2"; "-"; "7"; "="; "AC"; "9"]))).
  { replace (history (Sample.run ["2"; "-"; "7"; "="; "AC"; "9"]))
      with ["2-7 = -5"] by run_equal. now left. }
  split; [reflexivity|]. split; [exact Hreach|]. split; [exact Hin|].
  destruct (select_previews_result (E := Sample.evaluator) Sample.keys
              (Sample.run ["2"; "-"; "7"; "="; "AC"; "9"]) "2-7 = -5"
              eq_refl sample_render_spaceFree Hreach Hin)
    as (Hs & _ & Hitem & Hh).
  apply state_ext; cbn [showResult display history partialResult].
  - exact Hs.
  - run_equal.
  - rewrite Hh. run_equal.
  - replace (display (select (E := Sample.evaluator) "2-7 = -5"
               (Sample.run ["2"; "-"; "7"; "="; "AC"; "9"])))
      with "2-7" in Hitem by run_equal.
    apply (append_inv_head "2-7 = "). symmetry. exact Hitem.
Defined.

(** X11. Selecting a record of the history and pressing [=] finalizes
    the recorded expression again: the same record is appended once more
    at the end of the history, and the display shows the recorded
    result. *)
Theorem refinalize_reproduces_record {E : Evaluator}
    (keys : list string) (st : State) (item : string) :
  keysSpaceFree keys = true ->
  (forall m, hasSpace (numToString m) = false) ->
  reachable keys st ->
  In item (history st) ->
  let st' := press "=" (select item st) in
  history st' = (history st ++ [item])%list /\
  showResult st' = true /\
  item = split_head " = " item ++ " = " ++ display st'.
Proof.
  intros Hkeys Hnum Hreach Hin st'.
  pose proof (reachable_recorded keys st Hreach) as Hall.
  rewrite Forall_forall in Hall.
  destruct (recorded_split keys item Hkeys Hnum (Hall item Hin))
    as (n & Hne & Hev & Hitem).
  unfold st'.
  rewrite press_history, press_showResult, press_display.
  rewrite handleButton_equals.
  assert (Hd : display (setShowResult false (select item st))
               = split_head " = " item).
  { change (display (commit st (handleHistoryClick item st))
            = split_head " = " item).
    now destruct (commit_frame st (handleHistoryClick item st))
      as (_ & -> & _). }
  assert (Hh : history (setShowResult false (select item st)) = history st).
  { change (history (commit st (handleHistoryClick item st)) = history st).
    now destruct (commit_frame st (handleHistoryClick item st))
      as (_ & _ & ->). }
  rewrite (calculateResult_success (setShowResult false (select item st)) n)
    by (rewrite Hd; assumption).
  cbn [history showResult display]. rewrite Hh, Hd.
  split; [now rewrite <- Hitem|]. split; [reflexivity | exact Hitem].
Qed.

Lemma refinalize_reproduces_record_witness :
  let st := Sample.run ["2"; "-"; "7"; "="; "AC"; "9"] in
  keysSpaceFree Sample.keys = true /\
  reachable (E := Sample.evaluator) Sample.keys st /\
  In "2-7 = -5" (history st) /\
  history (press (E := Sample.evaluator) "="
             (select (E := Sample.evaluator) "2-7 = -5" st))
  = ["2-7 = -5"; "2-7 = -5"].
Proof.
  assert (Hreach : reachable (E := Sample.evaluator) Sample.keys
            (Sample.run ["2"; "-"; "7"; "="; "AC"; "9"])).
  { apply reachable_pressAll; [apply reach_mount|].
    apply sample_keys_in. reflexivity. }
  assert (Hin : In "2-7 = -5"
                  (history (Sample.run ["2"; "-"; "7"; "="; "AC"; "9"]))).
  { replace (history (Sample.run ["2"; "-"; "7"; "="; "AC"; "9"]))
      with ["2-7 = -5"] by run_equal. now left. }
  split; [reflexivity|]. split; [exact Hreach|]. split; [exact Hin|].
  destruct (refinalize_reproduces_record (E := Sample.evaluator) Sample.keys
              (Sample.run ["2"; "-"; "7"; "="; "AC"; "9"]) "2-7 = -5"
              eq_refl sample_render_spaceFree Hreach Hin) as (H & _).
  run_exact H.
Defined.



(** ** What is never rejected, and how the history grows *)

(** X13. Only operator keys and the decimal point are ever rejected: any
    other key besides [=], [AC] and [C] appends its text whatever the
    expression is, so that unbalanced parentheses and a function name
    right after a digit are accepted. *)
Theorem other_keys_always_accepted {E : Evaluator} (k : string) (st : State) :
  k <> "AC" -> k <> "C" -> k <> "=" ->
  isOperator k = false -> k <> "." ->
  display (press k st) = display st ++ keyText k /\
  display (pressAll [")"; "("] st) = display st ++ ")(" /\
  display (pressAll ["5"; "sin"] st) = display st ++ "5sin(".
Proof.
  intros HAC HC Heq Hop Hdot.
  assert (Hgen : forall k' s, k' <> "AC" -> k' <> "C" -> k' <> "=" ->
                   isOperator k' = false -> k' <> "." ->
                   display (press k' s) = display s ++ keyText k').
  { intros k' s H1 H2 H3 H4 H5%String.eqb_neq.
    rewrite press_display, handleButton_display by assumption.
    unfold rejected. now rewrite H4, H5. }
  split; [now apply Hgen|]. split.
  - change (pressAll [")"; "("] st) with (press "(" (press ")" st)).
    rewrite !Hgen by (try discriminate; reflexivity).
    now rewrite append_assoc.
  - change (pressAll ["5"; "sin"] st) with (press "sin" (press "5" st)).
    rewrite !Hgen by (try discriminate; reflexivity).
    now rewrite append_assoc.
Qed.

Lemma other_keys_always_accepted_witness :
  let st := Sample.run ["1"; "."] in
  isOperator "cos" = false /\
  display (press (E := Sample.evaluator) "cos" st) = "1.cos(".
Proof.
  split; [reflexivity|].
  assert (Hne : forall x, In x ["AC"; "C"; "="; "."] -> "cos" <> x).
  { intros x Hx. cbn in Hx. intuition (subst; discriminate). }
  destruct (other_keys_always_accepted (E := Sample.evaluator) "cos"
              (Sample.run ["1"; "."])
              (Hne "AC" (or_introl eq_refl))
              (Hne "C" (or_intror (or_introl eq_refl)))
              (Hne "=" (or_intror (or_intror (or_introl eq_refl))))
              eq_refl
              (Hne "." (or_intror (or_intror (or_intror (or_introl eq_refl))))))
    as (H & _).
  run_exact H.
Defined.

(** X14. Over any run of key presses the history grows by at most one
    record per [=] pressed, whatever the other keys are. *)
Theorem history_growth_bound {E : Evaluator} (ks : list string) (st : State) :
  (length (history (pressAll ks st))
   <= length (history st) + count_occ string_dec ks "=")%nat /\
  (length (history st) <= length (history (pressAll ks st)))%nat.
Proof.
  revert st. induction ks as [|k ks IH]; intros st.
  - cbn. lia.
  - change (pressAll (k :: ks) st) with (pressAll ks (press k st)).
    destruct (IH (press k st)) as [Hup Hlow].
    rewrite press_history in Hup, Hlow. cbn [count_occ].
    destruct (string_dec k "=") as [-> | Hne].
    + destruct (handleButton_history "=" st) as [Hsame | [r Hr]].
      * rewrite Hsame in Hup, Hlow. lia.
      * rewrite Hr, length_app in Hup, Hlow. cbn [length] in Hup, Hlow. lia.
    + rewrite handleButton_history_frame in Hup, Hlow by exact Hne. lia.
Qed.

Lemma history_growth_bound_witness :
  let ks := ["7"; "="; "+"; "="; "AC"; "="; "3"; "C"; "="] in
  count_occ string_dec ks "=" = 4%nat /\
  history (Sample.run ks) = ["7 = 7"] /\
  (length (history (Sample.run ks)) <= 0 + 4)%nat.
Proof.
  split; [reflexivity|]. split; [run_equal|].
  destruct (history_growth_bound (E := Sample.evaluator)
              ["7"; "="; "+"; "="; "AC"; "="; "3"; "C"; "="]
              (partialEffect (E := Sample.evaluator) initialState))
    as [H _].
  exact H.
Defined.
